(** * py-questdb-client: the build script [setup.py] and the ingestion core

    The first part embeds [setup.py] as it is written: the module-level
    configuration block, [ingress_extension], [egress_extension] and
    [cargo_build].  The process environment [os.environ] is a finite map
    from names to values, and the effects of [cargo_build] (reading and
    writing the environment, writing to [sys.stderr], spawning
    subprocesses, raising) are threaded through a small state-and-exception
    monad.

    The second part models the ingestion core (Buffer, Row Builder, Sender
    Session) that [setup.py] builds from [src/questdb/ingress.pyx]. *)

From Stdlib Require Import ZArith Ascii String.
From Stdlib.Strings Require Import Byte.
From stdpp Require Import gmap strings list pretty.

Open Scope string_scope.
Open Scope nat_scope.
Open Scope list_scope.

(* ===================================================================== *)
(** * Part I: [setup.py]                                                  *)
(* ===================================================================== *)

Module Setup.

(** ** Python values used by the script *)

(** [os.environ] and its copies: dictionaries from [str] to [str]. *)
Abbreviation environ := (gmap string string).

(** A [pathlib.Path] as the sequence of its components; [p / 'name']
    appends one component. *)
Definition Path : Type := list string.

Definition path_div (p : Path) (s : string) : Path := p ++ [s].

Infix "//" := path_div (at level 40, left associativity).

(** The exceptions the script can end with.  [sys.exit(n)] raises
    [SystemExit(n)]; propagated to the top level it ends the process with
    exit status [n]. *)
Inductive exn : Type :=
| NotImplementedError (msg : string)
| SystemExit (code : Z)
| CalledProcessError (returncode : Z) (cmd : list string)
| FileNotFoundError (prog : string)
| KeyError (key : string)
| NameError (name : string)
| HelperError (what : string) (* whatever [install_rust] raises *).

Inductive outcome (A : Type) : Type :=
| Ret (a : A)
| Raise (e : exn).

Arguments Ret {A} a.
Arguments Raise {A} e.

(** [setuptools.extension.Extension], with the keyword arguments the script
    passes. *)
Record Extension : Type := mkExtension {
  ext_name : string;
  sources : list string;
  include_dirs : list string;
  library_dirs : list string;
  libraries : list string;
  extra_compile_args : list string;
  extra_link_args : list string;
  extra_objects : list string
}.

(** ** Module-level configuration (lines 18-30) *)

Definition WIN_32BIT_CARGO_TARGET : string := "i686-pc-windows-msvc".

(** The module globals assigned by the fuzzing block.  [ORIG_CC] and
    [ORIG_CXX] are bound only inside the [if]: the outer [option] is [None]
    while the name is unbound, the inner one is the result of
    [os.environ.get]. *)
Record globals : Type := mkGlobals {
  INSTRUMENT_FUZZING : bool;
  ORIG_CC : option (option string);
  ORIG_CXX : option (option string)
}.

(** Lines 24-30, run once at import: returns the globals and the process
    environment as the block leaves it. *)
Definition module_init (e : environ) : globals * environ :=
  if bool_decide (e !! "TEST_QUESTDB_FUZZING" = Some "1") then
    let orig_cc := e !! "CC" in
    let e1 := <["CC" := "clang"]> e in
    let orig_cxx := e1 !! "CXX" in
    let e2 := <["CXX" := "clang++"]> e1 in
    ({| INSTRUMENT_FUZZING := true;
        ORIG_CC := Some orig_cc;
        ORIG_CXX := Some orig_cxx |}, e2)
  else
    ({| INSTRUMENT_FUZZING := false; ORIG_CC := None; ORIG_CXX := None |}, e).

(** ** The host and the effects of [cargo_build] *)

(** One subprocess invocation: the argument vector, the [cwd=] and the
    environment the child receives ([env=], or the process environment when
    the keyword is not given). *)
Record call : Type := mkCall {
  args : list string;
  cwd : option string;
  env : environ
}.

(** How a spawned program ends: with an exit status, or not at all because
    the executable was not found. *)
Inductive proc_result : Type :=
| Exited (status : Z)
| NoSuchProgram.

(** What the script observes of the machine it runs on, and the helpers it
    imports from [install_rust] (their code is not part of [setup.py]):
    [export_cargo_to_path] acts on the process environment, [install_rust]
    may raise. *)
Record host : Type := mkHost {
  submodule_exists : bool;
  which_cargo : bool;
  cargo_path_exists : bool;
  export_cargo_to_path : environ -> environ;
  install_rust : environ -> outcome environ;
  spawn : call -> proc_result
}.

(** The mutable process state: [os.environ], what was written to
    [sys.stderr], and the subprocesses spawned so far, oldest first. *)
Record world : Type := mkWorld {
  os_environ : environ;
  stderr : list string;
  spawned : list call
}.

Definition M (A : Type) : Type := world -> outcome A * world.

Definition ret {A} (a : A) : M A := fun w => (Ret a, w).

Definition raise {A} (e : exn) : M A := fun w => (Raise e, w).

Definition bind {A B} (m : M A) (k : A -> M B) : M B :=
  fun w =>
    match m w with
    | (Ret a, w') => k a w'
    | (Raise e, w') => (Raise e, w')
    end.

Notation "x <- m ;; k" := (bind m (fun x => k))
  (at level 100, m at next level, right associativity).
Notation "m ;;; k" := (bind m (fun _ => k))
  (at level 100, right associativity).

(** [os.environ.get(name)] *)
Definition environ_get (name : string) : M (option string) :=
  fun w => (Ret (os_environ w !! name), w).

(** [os.environ.copy()] *)
Definition environ_copy : M environ :=
  fun w => (Ret (os_environ w), w).

(** A helper that rewrites [os.environ] in place. *)
Definition environ_update (f : environ -> environ) : M unit :=
  fun w => (Ret tt, {| os_environ := f (os_environ w);
                       stderr := stderr w;
                       spawned := spawned w |}).

(** A helper that may raise, and otherwise rewrites [os.environ]. *)
Definition environ_try (f : environ -> outcome environ) : M unit :=
  fun w =>
    match f (os_environ w) with
    | Ret e' => (Ret tt, {| os_environ := e';
                            stderr := stderr w;
                            spawned := spawned w |})
    | Raise x => (Raise x, w)
    end.

(** The line terminator of the diagnostics, ['\n']. *)
Definition NL : string := String "010"%char "".

(** [sys.stderr.write(text)] *)
Definition stderr_write (text : string) : M unit :=
  fun w => (Ret tt, {| os_environ := os_environ w;
                       stderr := stderr w ++ [text];
                       spawned := spawned w |}).

(** [sys.exit(code)] *)
Definition sys_exit {A} (code : Z) : M A := raise (SystemExit code).

(** [del d[key]] on a dictionary held in a local variable. *)
Definition dict_del (key : string) (d : environ) : M environ :=
  match d !! key with
  | Some _ => ret (delete key d)
  | None => raise (KeyError key)
  end.

(** [subprocess.check_call(argv, cwd=..., env=...)]: returns when the child
    exits with status 0, raises [CalledProcessError] on another status, and
    [FileNotFoundError] when the executable cannot be started. *)
Definition check_call (h : host) (argv : list string) (dir : option string)
    (child_env : option environ) : M unit :=
  fun w =>
    let c := {| args := argv; cwd := dir;
                env := default (os_environ w) child_env |} in
    let w' := {| os_environ := os_environ w;
                 stderr := stderr w;
                 spawned := spawned w ++ [c] |} in
    match spawn h c with
    | Exited 0 => (Ret tt, w')
    | Exited status => (Raise (CalledProcessError status argv), w')
    | NoSuchProgram => (Raise (FileNotFoundError (hd "" argv)), w')
    end.

Section Script.

(** [PROJ_ROOT], [PLATFORM] ([sys.platform]) and [MODE]
    ([platform.architecture()[0]]) are fixed at import; [path_str] is
    [str] on a path, which depends on the path flavour of the host. *)
Variable PROJ_ROOT : Path.
Variable PLATFORM : string.
Variable MODE : string.
Variable path_str : Path -> string.
Variable g : globals.

Definition win32_32bit : bool :=
  bool_decide (PLATFORM = "win32") && bool_decide (MODE = "32bit").

(** ** [ingress_extension] (lines 33-85) *)

(** Lines 42-53: the library directory and the first compile and link
    flags. *)
Definition ingress_lib_dir_and_flags : Path * list string * list string :=
  if win32_32bit then
    (PROJ_ROOT // "target" // WIN_32BIT_CARGO_TARGET // "release", [], [])
  else
    let lib_dir := PROJ_ROOT // "target" // "release" in
    if INSTRUMENT_FUZZING g then
      (lib_dir, ["-fsanitize=fuzzer-no-link"], ["-fsanitize=fuzzer-no-link"])
    else
      (lib_dir, ["-flto"], ["-flto"]).

(** Lines 55-67: [(lib_prefix, lib_suffix, extra_link_args, libraries)]
    after the platform switch, starting from the link flags and the empty
    [libraries] list. *)
Definition ingress_platform (extra_link_args : list string)
  : outcome (string * string * list string * list string) :=
  if bool_decide (PLATFORM = "darwin") then
    Ret ("lib", ".a",
         extra_link_args ++
           ["-framework"; "Security"; "-framework"; "CoreFoundation"],
         [])
  else if bool_decide (PLATFORM = "win32") then
    Ret ("", ".lib", extra_link_args,
         ["wsock32"; "ws2_32"; "ntdll"; "AdvAPI32"; "bcrypt"; "UserEnv";
          "crypt32"; "Secur32"; "NCrypt"])
  else if bool_decide (PLATFORM = "linux") then
    Ret ("lib", ".a", extra_link_args, [])
  else
    Raise (NotImplementedError ("Unsupported platform: " +:+ PLATFORM)).

Definition ingress_extension : outcome Extension :=
  let '(lib_dir, compile_args, link_args) := ingress_lib_dir_and_flags in
  match ingress_platform link_args with
  | Raise e => Raise e
  | Ret (lib_prefix, lib_suffix, link_args', libs) =>
      let objects :=
        (fun '(loc, name) => path_str (loc // (lib_prefix +:+ name +:+ lib_suffix)))
          <$> [(lib_dir, "questdb_client"); (lib_dir, "pystr_to_utf8")] in
      Ret {| ext_name := "questdb.ingress";
             sources := ["src/questdb/ingress.pyx"];
             include_dirs := ["c-questdb-client/include"; "pystr-to-utf8/include"];
             library_dirs := [];
             libraries := libs;
             extra_compile_args := compile_args;
             extra_link_args := link_args';
             extra_objects := objects |}
  end.

(** ** [egress_extension] (lines 88-103) *)

Definition egress_extension : Extension :=
  let '(lib_prefix, lib_suffix) :=
    if bool_decide (PLATFORM = "darwin") then ("lib", ".dylib")
    else if bool_decide (PLATFORM = "win32") then ("", ".dll")
    else ("lib", ".so") in
  let lib_name := lib_prefix +:+ "questdb_egress" +:+ lib_suffix in
  let lib_dir := PROJ_ROOT // "target" // "release" in
  {| ext_name := "questdb.egress";
     sources := [];
     include_dirs := [];
     library_dirs := [];
     libraries := [];
     extra_compile_args := [];
     extra_link_args := [];
     extra_objects := [path_str (lib_dir // lib_name)] |}.

(** ** [ext_modules] (lines 174-178) *)

(** [cythonize] is Cython's; it is given the list with the ingress
    extension and returns the extensions to build, or raises. *)
Definition ext_modules
    (cythonize : list Extension -> outcome (list Extension))
  : outcome (list Extension) :=
  let ext_modules := [] in
  match ingress_extension with
  | Raise e => Raise e
  | Ret ingress =>
      match cythonize [ingress] with
      | Raise e => Raise e
      | Ret built =>
          let ext_modules := ext_modules ++ built in
          Ret (ext_modules ++ [egress_extension])
      end
  end.

(** ** [cargo_build] (lines 106-156) *)

Variable h : host.

Definition git_submodule_update : list string :=
  ["git"; "submodule"; "update"; "--init"; "--recursive"].

(** Lines 107-118. *)
Definition ensure_submodule : M unit :=
  if negb (submodule_exists h) then
    flag <- environ_get "SETUP_DO_GIT_SUBMODULE_INIT" ;;
    if bool_decide (flag = Some "1") then
      check_call h git_submodule_update None None
    else
      stderr_write ("Could not find `c-questdb-client` submodule." +:+ NL) ;;;
      stderr_write ("You might need to run:" +:+ NL) ;;;
      stderr_write ("    git submodule update --init --recursive" +:+ NL) ;;;
      stderr_write NL ;;;
      stderr_write ("Alternatively specify the `SETUP_DO_GIT_SUBMODULE_INIT=1` env variable" +:+ NL) ;;;
      sys_exit 1
  else ret tt.

(** Lines 120-132. *)
Definition ensure_cargo : M unit :=
  if negb (which_cargo h) then
    if cargo_path_exists h then
      environ_update (export_cargo_to_path h)
    else
      flag <- environ_get "SETUP_DO_RUSTUP_INSTALL" ;;
      if bool_decide (flag = Some "1") then
        environ_try (install_rust h) ;;;
        environ_update (export_cargo_to_path h)
      else
        stderr_write ("Could not find the `cargo` executable." +:+ NL) ;;;
        stderr_write ("You may install it via http://rustup.rs/." +:+ NL) ;;;
        stderr_write NL ;;;
        stderr_write ("Alternatively specify the `SETUP_DO_RUSTUP_INSTALL=1` env variable" +:+ NL) ;;;
        sys_exit 1
  else ret tt.

(** Lines 134-140. *)
Definition cargo_args : list string :=
  let cargo_args := ["cargo"; "build"; "--release"] in
  if win32_32bit then
    cargo_args ++ ["--target=" +:+ WIN_32BIT_CARGO_TARGET]
  else cargo_args.

(** Lines 144-147 (and 148-151 for [CXX]): put the original value back
    into the copy, or delete the key when there was none. *)
Definition restore_var (name : string) (orig : option (option string))
    (child_env : environ) : M environ :=
  match orig with
  | None => raise (NameError ("ORIG_" +:+ name))
  | Some (Some v) => ret (<[name := v]> child_env)
  | Some None => dict_del name child_env
  end.

(** Lines 142-151: the environment for the cargo subprocess. *)
Definition cargo_env : M environ :=
  child_env <- environ_copy ;;
  if INSTRUMENT_FUZZING g then
    child_env <- restore_var "CC" (ORIG_CC g) child_env ;;
    restore_var "CXX" (ORIG_CXX g) child_env
  else ret child_env.

Definition cargo_features : list string :=
  ["--features"; "questdb-rs-ffi/confstr-ffi"].

Definition cargo_build : M unit :=
  ensure_submodule ;;;
  ensure_cargo ;;;
  let cargo_args := cargo_args in
  child_env <- cargo_env ;;
  check_call h (cargo_args ++ cargo_features)
    (Some (path_str PROJ_ROOT)) (Some child_env).

(** [questdb_build_ext.run] up to the call of the inherited [run]: the
    extension build starts only when [cargo_build] returned. *)
Definition build_ext_run (super_run : M unit) : M unit :=
  cargo_build ;;; super_run.

(** ** Vocabulary for the properties of [cargo_build] *)

Definition submodule_diagnostics : list string :=
  ["Could not find `c-questdb-client` submodule." +:+ NL;
   "You might need to run:" +:+ NL;
   "    git submodule update --init --recursive" +:+ NL;
   NL;
   "Alternatively specify the `SETUP_DO_GIT_SUBMODULE_INIT=1` env variable" +:+ NL].

Definition cargo_diagnostics : list string :=
  ["Could not find the `cargo` executable." +:+ NL;
   "You may install it via http://rustup.rs/." +:+ NL;
   NL;
   "Alternatively specify the `SETUP_DO_RUSTUP_INSTALL=1` env variable" +:+ NL].

(** The world after [msgs] were written to [sys.stderr]. *)
Definition wrote (msgs : list string) (w : world) : world :=
  {| os_environ := os_environ w;
     stderr := stderr w ++ msgs;
     spawned := spawned w |}.

(** The world after the subprocess [c] was started. *)
Definition started (c : call) (w : world) : world :=
  {| os_environ := os_environ w;
     stderr := stderr w;
     spawned := spawned w ++ [c] |}.

Definition git_call (w : world) : call :=
  {| args := git_submodule_update; cwd := None; env := os_environ w |}.

Definition cargo_call (child_env : environ) : call :=
  {| args := cargo_args ++ cargo_features;
     cwd := Some (path_str PROJ_ROOT);
     env := child_env |}.

(** The two preparation steps of [cargo_build], lines 107-132. *)
Definition prepare : M unit :=
  bind (ensure_submodule) (fun _ => ensure_cargo).

(** What [cargo_build] does after the submodule check, lines 120-156. *)
Definition build_after_submodule : M unit :=
  bind ensure_cargo
    (fun _ => bind cargo_env
       (fun child_env =>
          check_call h (cargo_args ++ cargo_features)
            (Some (path_str PROJ_ROOT)) (Some child_env))).

End Script.

End Setup.

(* ===================================================================== *)
(** * Part II: the ingestion core                                         *)
(* ===================================================================== *)

(** [setup.py] compiles the extension [questdb.ingress] from
    [src/questdb/ingress.pyx] and the Rust library under
    [c-questdb-client]; neither is part of the build script.  The
    definitions of this part follow the specification of that core: the
    Buffer, the Row Builder layered on it, and the Sender Session. *)

Module Ingress.

(** Modelled from the spec: the error taxonomy of section 7 of the missing
    ingestion core. *)
Inductive error : Type :=
| InvalidNameError
| ColumnOrderError
| DuplicateColumnError
| EmptyRowError
| TimestampAlreadySetError
| EncodingError
| RangeError
| ConnectionError
| TLSError
| FlushError
| RejectedError.

Inductive result (A : Type) : Type :=
| Ok (a : A)
| Err (e : error).

Arguments Ok {A} a.
Arguments Err {A} e.

(** Modelled from the spec: a field value of the missing ingestion core
    (section 3): bool, integer, float, string or timestamp.  The float
    representation is left to the marshalling layer. *)
Inductive value (float : Type) : Type :=
| VBool (b : bool)
| VInt (i : Z)
| VFloat (f : float)
| VString (s : string)
| VTimestamp (nanos : Z).

Arguments VBool {float} b.
Arguments VInt {float} i.
Arguments VFloat {float} f.
Arguments VString {float} s.
Arguments VTimestamp {float} nanos.

(** Modelled from the spec: the per-context escaping and value encoding of
    the wire format (section 4.1); the native encoder under
    [c-questdb-client] is missing.
    Each encoder may fail ([InvalidNameError], [EncodingError],
    [RangeError]); what it emits on success is not fixed here. *)
Class LineProtocol (float : Type) : Type := {
  max_name_length : nat;
  escape_table : string -> result (list byte);
  escape_column : string -> result (list byte);
  escape_symbol : string -> result (list byte);
  encode_value : value float -> result (list byte);
  encode_timestamp : Z -> result (list byte)
}.

(** The separators of a line: [table,symbol=val field=val,field=val ts\n]. *)
Definition COMMA : byte := x2c.
Definition EQUALS : byte := x3d.
Definition SPACE : byte := x20.
Definition NEWLINE : byte := x0a.

(** ** Buffer and Row Builder *)

(** Modelled from the spec: the states of the Row Builder (section 4.2) of the
    missing [questdb.ingress] extension,
    [NotStarted -> TableSet -> SymbolsPhase* -> FieldsPhase+ ->
    TimestampOptional -> Committed | Discarded]. *)
Inductive phase : Type :=
| NotStarted
| TableSet
| SymbolsPhase
| FieldsPhase
| TimestampOptional
| Committed
| Discarded.

(** Modelled from the spec: the Buffer of section 3 (its code in
    [src/questdb/ingress.pyx] is missing).  [region] holds the
    bytes written so far (the write cursor is its length), [capacity] the
    allocated size, [committed_end] the end of the committed rows,
    [row_start_mark] the start of the row being built; [state] and
    [columns] are the Row Builder's state and the column names of the open
    row. *)
Record Buffer : Type := mkBuffer {
  region : list byte;
  capacity : nat;
  committed_end : nat;
  row_start_mark : nat;
  state : phase;
  columns : list string
}.

Definition empty : Buffer :=
  {| region := []; capacity := 0; committed_end := 0; row_start_mark := 0;
     state := NotStarted; columns := [] |}.

(** The committed bytes, [[0, committed_end)]. *)
Definition committed (b : Buffer) : list byte :=
  take (committed_end b) (region b).

Definition row_open (b : Buffer) : bool :=
  match state b with
  | TableSet | SymbolsPhase | FieldsPhase | TimestampOptional => true
  | NotStarted | Committed | Discarded => false
  end.

(** The invariant of section 3 on the cursors: nothing lies between
    [committed_end] and [row_start_mark], the mark is inside the written
    region, and with no row open the cursor is at the mark. *)
Definition well_formed (b : Buffer) : bool :=
  (committed_end b =? row_start_mark b)
  && (row_start_mark b <=? length (region b))
  && (row_open b || (length (region b) =? row_start_mark b)).

(** [b'] holds the row of [b] with more bytes written after it: the marks
    are those of [b] and the region of [b] is a prefix of that of [b']. *)
Definition extends (b b' : Buffer) : Prop :=
  committed_end b' = committed_end b /\
  row_start_mark b' = row_start_mark b /\
  exists more, region b' = region b ++ more.

(** Modelled from the spec: the missing Buffer allocator (section 3):
    geometric growth of the capacity by doubling
    until [need] bytes fit; the capacity never shrinks. *)
Fixpoint grow (fuel cap need : nat) : nat :=
  match fuel with
  | 0 => Nat.max cap need
  | S fuel' =>
      if need <=? cap then cap
      else grow fuel' (Nat.max 1 (2 * cap)) need
  end.

Definition reserve (cap need : nat) : nat := grow need cap need.

(** Cursor-based append: the bytes go after everything written so far. *)
Definition append (bs : list byte) (b : Buffer) : Buffer :=
  {| region := region b ++ bs;
     capacity := reserve (capacity b) (length (region b ++ bs));
     committed_end := committed_end b;
     row_start_mark := row_start_mark b;
     state := state b;
     columns := columns b |}.

Definition set_state (p : phase) (cols : list string) (b : Buffer) : Buffer :=
  {| region := region b;
     capacity := capacity b;
     committed_end := committed_end b;
     row_start_mark := row_start_mark b;
     state := p;
     columns := cols |}.

Section Core.

Context {float : Type} `{LP : LineProtocol float}.

(** Modelled from the spec: the name validation of the missing Buffer
    (section 4.1).  A name is rejected when it is empty or longer than the
    maximum; the escaping function rejects the disallowed characters of its
    context. *)
Definition check_name (escape : string -> result (list byte)) (name : string)
  : result (list byte) :=
  if bool_decide (name = "") then Err InvalidNameError
  else if max_name_length <? String.length name then Err InvalidNameError
  else escape name.

(** Modelled from the spec: the missing [begin_row(table_name)] of section
    4.1.  It
    opens a row scope at the cursor; calling it while a row is open is a
    call out of sequence. *)
Definition begin_row (table_name : string) (b : Buffer) : result Buffer :=
  if row_open b then Err ColumnOrderError
  else
    match check_name escape_table table_name with
    | Err e => Err e
    | Ok bs =>
        let b' := {| region := region b;
                     capacity := capacity b;
                     committed_end := committed_end b;
                     row_start_mark := length (region b);
                     state := TableSet;
                     columns := [] |} in
        Ok (append bs b')
    end.

(** Modelled from the spec: the missing [add_symbol(name, value)] of section
    4.1:
    [ColumnOrderError] after any field (and for any call out of sequence),
    [InvalidNameError] on a malformed name, [DuplicateColumnError] on a
    repeated column name.  A failed call appends nothing. *)
Definition add_symbol (name val : string) (b : Buffer) : result Buffer :=
  match state b with
  | TableSet | SymbolsPhase =>
      match check_name escape_column name with
      | Err e => Err e
      | Ok n =>
          if bool_decide (name ∈ columns b) then Err DuplicateColumnError
          else
            match escape_symbol val with
            | Err e => Err e
            | Ok v =>
                Ok (set_state SymbolsPhase (columns b ++ [name])
                      (append (COMMA :: n ++ EQUALS :: v) b))
            end
      end
  | _ => Err ColumnOrderError
  end.

(** Modelled from the spec: the missing [add_field(name, value)] of section
    4.1.  The
    first field is separated from the table and symbols by a space, the
    following ones by commas. *)
Definition add_field (name : string) (val : value float) (b : Buffer)
  : result Buffer :=
  match state b with
  | TableSet | SymbolsPhase | FieldsPhase =>
      match check_name escape_column name with
      | Err e => Err e
      | Ok n =>
          if bool_decide (name ∈ columns b) then Err DuplicateColumnError
          else
            match encode_value val with
            | Err e => Err e
            | Ok v =>
                let sep := match state b with
                           | FieldsPhase => COMMA
                           | _ => SPACE
                           end in
                Ok (set_state FieldsPhase (columns b ++ [name])
                      (append (sep :: n ++ EQUALS :: v) b))
            end
      end
  | _ => Err ColumnOrderError
  end.

(** Modelled from the spec: the missing [set_timestamp(nanos)] of section
    4.1: at most
    once per row, after the fields. *)
Definition set_timestamp (nanos : Z) (b : Buffer) : result Buffer :=
  match state b with
  | FieldsPhase =>
      match encode_timestamp nanos with
      | Err e => Err e
      | Ok ts =>
          Ok (set_state TimestampOptional (columns b) (append (SPACE :: ts) b))
      end
  | TimestampOptional => Err TimestampAlreadySetError
  | _ => Err ColumnOrderError
  end.

(** Modelled from the spec: the missing [commit_row()] of section 4.1:
    terminates the
    line and advances [committed_end] to the cursor; [EmptyRowError] when
    no field was added. *)
Definition commit_row (b : Buffer) : result Buffer :=
  match state b with
  | FieldsPhase | TimestampOptional =>
      let b' := append [NEWLINE] b in
      Ok {| region := region b';
            capacity := capacity b';
            committed_end := length (region b');
            row_start_mark := length (region b');
            state := Committed;
            columns := [] |}
  | TableSet | SymbolsPhase => Err EmptyRowError
  | NotStarted | Committed | Discarded => Err ColumnOrderError
  end.

(** Modelled from the spec: the missing [discard_row()] of section 4.1:
    rolls the
    cursor back to the pre-row mark. *)
Definition discard_row (b : Buffer) : Buffer :=
  {| region := take (row_start_mark b) (region b);
     capacity := capacity b;
     committed_end := committed_end b;
     row_start_mark := row_start_mark b;
     state := Discarded;
     columns := [] |}.

(** Modelled from the spec: the missing [clear()] of section 4.1: empties
    the Buffer
    and keeps the allocated capacity. *)
Definition clear (b : Buffer) : Buffer :=
  {| region := [];
     capacity := capacity b;
     committed_end := 0;
     row_start_mark := 0;
     state := NotStarted;
     columns := [] |}.

(** The column calls made on an open row. *)
Inductive op : Type :=
| AddSymbol (name val : string)
| AddField (name : string) (val : value float)
| SetTimestamp (nanos : Z).

Definition apply_op (o : op) (b : Buffer) : result Buffer :=
  match o with
  | AddSymbol n v => add_symbol n v b
  | AddField n v => add_field n v b
  | SetTimestamp t => set_timestamp t b
  end.

(** A caller making the calls one after the other; a call that fails
    leaves the Buffer as it was and the caller goes on. *)
Fixpoint apply_ops (os : list op) (b : Buffer) : Buffer :=
  match os with
  | [] => b
  | o :: os' =>
      match apply_op o b with
      | Ok b' => apply_ops os' b'
      | Err _ => apply_ops os' b
      end
  end.

Definition is_field (o : op) : bool :=
  match o with
  | AddField _ _ => true
  | _ => false
  end.

End Core.

(** ** Transport and Sender Session *)

Inductive send_result : Type :=
| Ack
| Fault (e : error).

(** Modelled from the spec: the capability interface of the missing
    Transport
    (sections 4.3 and 9); only [send] is used by the flush.  The transport
    value carries the connection state, so a [send] may behave differently
    at each attempt. *)
Class Transport (T : Type) : Type := {
  send : T -> list byte -> T * send_result
}.

(** Modelled from the spec: the flush policy of the missing Sender Session
    (section 3); an absent
    threshold never triggers. *)
Record FlushPolicy : Type := mkFlushPolicy {
  auto_flush_bytes : option nat;
  auto_flush_rows : option nat;
  auto_flush_interval : option nat
}.

(** Modelled from the spec: the configuration of the missing Session
    (section 6): flush policy, attempt limit and backoff base. *)
Record Config : Type := mkConfig {
  policy : FlushPolicy;
  retry_attempts : nat;
  backoff_base : nat
}.

(** Modelled from the spec: the missing Sender Session of section 3.
    [slept]
    records the backoff delays waited so far, [last_flush] the clock
    reading of the last successful flush. *)
Record Session (T : Type) : Type := mkSession {
  transport : T;
  buffer : Buffer;
  config : Config;
  rows_since_flush : nat;
  last_flush : nat;
  slept : list nat
}.

Arguments mkSession {T}.
Arguments transport {T} s.
Arguments buffer {T} s.
Arguments config {T} s.
Arguments rows_since_flush {T} s.
Arguments last_flush {T} s.
Arguments slept {T} s.

(** Modelled from the spec: the exponential backoff of the missing retry
    loop (section 4.4).  The delay before retry number [attempt] (1, 2,
    ...) is the base doubled at every retry. *)
Definition backoff (base attempt : nat) : nat := base * 2 ^ (attempt - 1).

Section Sender.

Context {float : Type} `{LP : LineProtocol float}.
Context {T : Type} `{TR : Transport T}.

(** Modelled from the spec: the retry loop of the missing [flush()]
    (section 4.4).  At
    most [attempts_left] sends are made; a [ConnectionError] is retried
    after a backoff, any other fault is surfaced at once, and running out
    of attempts gives [FlushError]. *)
Fixpoint send_with_retry (attempts_left attempt base : nat) (t : T)
    (payload : list byte) (naps : list nat) : T * list nat * result unit :=
  match attempts_left with
  | 0 => (t, naps, Err FlushError)
  | S n =>
      let naps' := match attempt with
                   | 0 => naps
                   | S _ => naps ++ [backoff base attempt]
                   end in
      match send t payload with
      | (t', Ack) => (t', naps', Ok tt)
      | (t', Fault ConnectionError) =>
          send_with_retry n (S attempt) base t' payload naps'
      | (t', Fault e) => (t', naps', Err e)
      end
  end.

(** Modelled from the spec: the missing [flush()] of section 4.4: sends
    the whole
    committed content, clears the Buffer on success and leaves it as it is
    on failure. *)
Definition flush (s : Session T) (now : nat) : Session T * result unit :=
  let payload := committed (buffer s) in
  match send_with_retry (retry_attempts (config s)) 0
          (backoff_base (config s)) (transport s) payload (slept s) with
  | (t', naps, Ok _) =>
      ({| transport := t';
          buffer := clear (buffer s);
          config := config s;
          rows_since_flush := 0;
          last_flush := now;
          slept := naps |}, Ok tt)
  | (t', naps, Err e) =>
      ({| transport := t';
          buffer := buffer s;
          config := config s;
          rows_since_flush := rows_since_flush s;
          last_flush := last_flush s;
          slept := naps |}, Err e)
  end.

Definition exceeds (limit : option nat) (x : nat) : bool :=
  match limit with
  | Some l => l <? x
  | None => false
  end.

(** The size and row-count part of the auto-flush check. *)
Definition threshold_crossed (p : FlushPolicy) (size rows : nat) : bool :=
  exceeds (auto_flush_bytes p) size || exceeds (auto_flush_rows p) rows.

(** Modelled from the spec: the missing auto-flush check of section 4.4:
    byte
    size, row count or elapsed time since the last flush exceeds its
    configured threshold. *)
Definition auto_flush_due (p : FlushPolicy) (size rows elapsed : nat) : bool :=
  threshold_crossed p size rows || exceeds (auto_flush_interval p) elapsed.

(** What a commit through the Session did: the row was refused, it was
    committed without a flush, or it was committed and the flush that
    followed ended with [r]. *)
Inductive commit_outcome : Type :=
| CommitFailed (e : error)
| CommitOnly
| CommitFlushed (r : result unit).

(** The Session with its row committed and counted, before the check. *)
Definition count_row (s : Session T) (b : Buffer) : Session T :=
  {| transport := transport s;
     buffer := b;
     config := config s;
     rows_since_flush := S (rows_since_flush s);
     last_flush := last_flush s;
     slept := slept s |}.

(** Modelled from the spec: the missing [commit_row] through the Session
    (section
    4.4): the check runs after the commit, and a due flush is performed
    before control returns. *)
Definition session_commit_row (s : Session T) (now : nat)
  : Session T * commit_outcome :=
  match commit_row (buffer s) with
  | Err e => (s, CommitFailed e)
  | Ok b =>
      let s1 := count_row s b in
      if auto_flush_due (policy (config s1)) (committed_end (buffer s1))
           (rows_since_flush s1) (now - last_flush s1)
      then let '(s2, r) := flush s1 now in (s2, CommitFlushed r)
      else (s1, CommitOnly)
  end.

Definition with_buffer (s : Session T) (b : Buffer) : Session T :=
  {| transport := transport s;
     buffer := b;
     config := config s;
     rows_since_flush := rows_since_flush s;
     last_flush := last_flush s;
     slept := slept s |}.

(** One row as the caller builds it: the table, the column calls, and the
    clock reading at the commit. *)
Record row_script : Type := mkRow {
  table : string;
  calls : list (@op float);
  clock : nat
}.

(** The caller opens the row, makes the column calls and commits through
    the Session; a row that cannot be opened or committed is discarded. *)
Definition ingest (s : Session T) (r : row_script)
  : Session T * commit_outcome :=
  match begin_row (table r) (buffer s) with
  | Err e => (s, CommitFailed e)
  | Ok b =>
      let s1 := with_buffer s (apply_ops (calls r) b) in
      match session_commit_row s1 (clock r) with
      | (s2, CommitFailed e) =>
          (with_buffer s2 (discard_row (buffer s2)), CommitFailed e)
      | (s2, o) => (s2, o)
      end
  end.

(** One step of a run: the Session before the row, the row, what the
    commit did, and the Session after it. *)
Record step : Type := mkStep {
  before : Session T;
  row : row_script;
  outcome_of : commit_outcome;
  after : Session T
}.

Fixpoint run (s : Session T) (rs : list row_script) : list step :=
  match rs with
  | [] => []
  | r :: rs' =>
      let '(s', o) := ingest s r in
      {| before := s; row := r; outcome_of := o; after := s' |} :: run s' rs'
  end.

(** ** Vocabulary for the properties of the Session *)

(** The transport after [n] sends of [payload]. *)
Definition after_sends (n : nat) (payload : list byte) (t : T) : T :=
  Nat.iter n (fun t => (send t payload).1) t.

(** Every one of the first [n] sends of [payload] from [t] fails with a
    [ConnectionError]. *)
Definition all_sends_fail (n : nat) (payload : list byte) (t : T) : Prop :=
  forall k, k < n ->
    (send (after_sends k payload t) payload).2 = Fault ConnectionError.




End Sender.

(** ** Stand-ins for closed examples *)

(** A line protocol that writes names and values as they are, for rows
    whose names and values hold no reserved character; floats are given by
    their decimal text. *)
Definition raw_protocol : LineProtocol string :=
  {| max_name_length := 127;
     escape_table := fun s => Ok (list_byte_of_string s);
     escape_column := fun s => Ok (list_byte_of_string s);
     escape_symbol := fun s => Ok (list_byte_of_string s);
     encode_value := fun v =>
       match v with
       | VBool b => Ok (list_byte_of_string (if b then "t" else "f"))
       | VInt i => Ok (list_byte_of_string (pretty i +:+ "i"))
       | VFloat f => Ok (list_byte_of_string f)
       | VString s => Ok (list_byte_of_string s)
       | VTimestamp t => Ok (list_byte_of_string (pretty t +:+ "t"))
       end;
     encode_timestamp := fun t => Ok (list_byte_of_string (pretty t)) |}.

(** A transport that acknowledges every send and keeps what it was sent. *)
Definition recorder : Transport (list (list byte)) :=
  {| send := fun t payload => (t ++ [payload], Ack) |}.

(** A transport that is down for its next [t] sends and acknowledges
    afterwards. *)
Definition flaky : Transport nat :=
  {| send := fun t _ =>
       match t with
       | 0 => (0, Ack)
       | S t' => (t', Fault ConnectionError)
       end |}.

(** The row of section 8: table [sensor], symbol [city=ldn], field
    [temp=21.5], timestamp 1000. *)
Definition sensor_row (now : nat) : @row_script string :=
  {| table := "sensor";
     calls := [AddSymbol "city" "ldn"; AddField "temp" (VFloat "21.5");
               SetTimestamp 1000];
     clock := now |}.

(** A Buffer holding that row, committed. *)
Definition one_row : Buffer :=
  match @begin_row string raw_protocol "sensor" empty with
  | Ok b =>
      match commit_row (@apply_ops string raw_protocol (calls (sensor_row 0)) b) with
      | Ok b' => b'
      | Err _ => empty
      end
  | Err _ => empty
  end.

(** Flush after more than one row; three send attempts, backoff base 10. *)
Definition every_second_row : Config :=
  {| policy := {| auto_flush_bytes := None;
                  auto_flush_rows := Some 1;
                  auto_flush_interval := None |};
     retry_attempts := 3;
     backoff_base := 10 |}.

End Ingress.

(* ===================================================================== *)
(** * Part III: properties of [setup.py]                                  *)
(* ===================================================================== *)

Section SetupFacts.

Import Setup.

Variable PROJ_ROOT : Path.
Variable PLATFORM : string.
Variable MODE : string.
Variable path_str : Path -> string.

(** The condition of lines 43 and 139 as a proposition. *)
Lemma win32_32bit_spec :
  win32_32bit PLATFORM MODE = true <-> PLATFORM = "win32" /\ MODE = "32bit".
Proof.
  unfold win32_32bit.
  rewrite andb_true_iff, !bool_decide_eq_true. reflexivity.
Qed.

Lemma win32_32bit_false :
  win32_32bit PLATFORM MODE = false <-> ~ (PLATFORM = "win32" /\ MODE = "32bit").
Proof.
  rewrite <- win32_32bit_spec. destruct (win32_32bit PLATFORM MODE); split; congruence.
Qed.

(** The library directory chosen by lines 42-47. *)
Lemma ingress_lib_dir g :
  (ingress_lib_dir_and_flags PROJ_ROOT PLATFORM MODE g).1.1 =
  if win32_32bit PLATFORM MODE
  then PROJ_ROOT // "target" // "i686-pc-windows-msvc" // "release"
  else PROJ_ROOT // "target" // "release".
Proof.
  unfold ingress_lib_dir_and_flags.
  destruct (win32_32bit PLATFORM MODE); [reflexivity|].
  destruct (INSTRUMENT_FUZZING g); reflexivity.
Qed.

(** C8: on a platform other than darwin, win32 and linux
    [ingress_extension] raises [NotImplementedError]; on each of the three
    it returns an [Extension] whose two static libraries are named with
    ['lib'] and ['.a'] (darwin, linux) or with no prefix and ['.lib']
    (win32), inside the library directory. *)
Theorem ingress_extension_platforms (g : globals) :
  let lib_dir := (ingress_lib_dir_and_flags PROJ_ROOT PLATFORM MODE g).1.1 in
  (PLATFORM <> "darwin" -> PLATFORM <> "win32" -> PLATFORM <> "linux" ->
   ingress_extension PROJ_ROOT PLATFORM MODE path_str g =
   Raise (NotImplementedError ("Unsupported platform: " +:+ PLATFORM)))
  /\ (PLATFORM = "darwin" \/ PLATFORM = "linux" ->
      exists ext,
        ingress_extension PROJ_ROOT PLATFORM MODE path_str g = Ret ext /\
        extra_objects ext =
          [path_str (lib_dir // "libquestdb_client.a");
           path_str (lib_dir // "libpystr_to_utf8.a")])
  /\ (PLATFORM = "win32" ->
      exists ext,
        ingress_extension PROJ_ROOT PLATFORM MODE path_str g = Ret ext /\
        extra_objects ext =
          [path_str (lib_dir // "questdb_client.lib");
           path_str (lib_dir // "pystr_to_utf8.lib")]).
Proof.
  intros lib_dir. subst lib_dir. unfold ingress_extension.
  destruct (ingress_lib_dir_and_flags PROJ_ROOT PLATFORM MODE g)
    as [[lib_dir cflags] lflags]. simpl.
  unfold ingress_platform.
  split; [|split].
  - intros Hd Hw Hl. rewrite !bool_decide_eq_false_2 by assumption. reflexivity.
  - intros [-> | ->]; simpl; eexists; (split; [reflexivity|]); reflexivity.
  - intros ->. simpl. eexists. split; reflexivity.
Qed.

(** What a returned Extension carries of the selection of lines 42-53. *)
Lemma ingress_extension_objects (g : globals) (ext : Extension) :
  ingress_extension PROJ_ROOT PLATFORM MODE path_str g = Ret ext ->
  let sel := ingress_lib_dir_and_flags PROJ_ROOT PLATFORM MODE g in
  extra_compile_args ext = sel.1.2 /\
  (exists more, extra_link_args ext = sel.2 ++ more) /\
  exists n1 n2, extra_objects ext =
                  [path_str (sel.1.1 // n1); path_str (sel.1.1 // n2)].
Proof.
  unfold ingress_extension.
  destruct (ingress_lib_dir_and_flags PROJ_ROOT PLATFORM MODE g)
    as [[lib_dir cflags] lflags]. simpl.
  unfold ingress_platform.
  repeat case_bool_decide; intros Hr; inversion Hr; subst; simpl;
    (split; [reflexivity|]); (split; [|eexists _, _; reflexivity]).
  - eexists; reflexivity.
  - exists []. rewrite app_nil_r. reflexivity.
  - exists []. rewrite app_nil_r. reflexivity.
Qed.

End SetupFacts.

(** C8 on FreeBSD, Linux and 32-bit Windows. *)
Lemma ingress_extension_platforms_witness :
  Setup.ingress_extension ["repo"] "freebsd" "64bit" (String.concat "/")
    (Setup.mkGlobals false None None) =
  Setup.Raise (Setup.NotImplementedError "Unsupported platform: freebsd")
  /\ (exists ext,
        Setup.ingress_extension ["repo"] "linux" "64bit" (String.concat "/")
          (Setup.mkGlobals false None None) = Setup.Ret ext /\
        Setup.extra_objects ext =
          ["repo/target/release/libquestdb_client.a";
           "repo/target/release/libpystr_to_utf8.a"])
  /\ (exists ext,
        Setup.ingress_extension ["repo"] "win32" "32bit" (String.concat "\")
          (Setup.mkGlobals false None None) = Setup.Ret ext /\
        Setup.extra_objects ext =
          ["repo\target\i686-pc-windows-msvc\release\questdb_client.lib";
           "repo\target\i686-pc-windows-msvc\release\pystr_to_utf8.lib"]).
Proof.
  split; [|split].
  - apply (ingress_extension_platforms ["repo"] "freebsd" "64bit"
             (String.concat "/") (Setup.mkGlobals false None None));
      discriminate.
  - apply (ingress_extension_platforms ["repo"] "linux" "64bit"
             (String.concat "/") (Setup.mkGlobals false None None)).
    right; reflexivity.
  - apply (ingress_extension_platforms ["repo"] "win32" "32bit"
             (String.concat "\") (Setup.mkGlobals false None None)).
    reflexivity.
Defined.

Section CargoBuildFacts.

Import Setup.

Variable PROJ_ROOT : Path.
Variable PLATFORM : string.
Variable MODE : string.
Variable path_str : Path -> string.
Variable g : globals.
Variable h : host.

Lemma check_call_cases argv dir child_env w :
  let c := {| args := argv; cwd := dir;
              env := default (os_environ w) child_env |} in
  check_call h argv dir child_env w =
  (match spawn h c with
   | Exited 0 => Ret tt
   | Exited status => Raise (CalledProcessError status argv)
   | NoSuchProgram => Raise (FileNotFoundError (hd "" argv))
   end, started c w).
Proof.
  intros c. unfold check_call. fold c.
  destruct (spawn h c) as [[| |]|]; reflexivity.
Qed.

(** [check_call] returns only when the child exited with status 0. *)
Lemma check_call_returns argv dir child_env w w' :
  check_call h argv dir child_env w = (Ret tt, w') ->
  let c := {| args := argv; cwd := dir;
              env := default (os_environ w) child_env |} in
  spawn h c = Exited 0 /\ w' = started c w.
Proof.
  rewrite check_call_cases. intros H c. fold c in H.
  destruct (spawn h c) as [[| |]|]; inversion H; auto.
Qed.

Lemma ensure_submodule_cases w :
  ensure_submodule h w =
  if submodule_exists h then (Ret tt, w)
  else if bool_decide (os_environ w !! "SETUP_DO_GIT_SUBMODULE_INIT" = Some "1")
  then check_call h git_submodule_update None None w
  else (Raise (SystemExit 1), wrote submodule_diagnostics w).
Proof.
  unfold ensure_submodule.
  destruct (submodule_exists h); simpl; [reflexivity|].
  unfold bind, environ_get.
  destruct (bool_decide _); [reflexivity|].
  unfold stderr_write, sys_exit, raise, wrote, submodule_diagnostics; simpl.
  rewrite <- !app_assoc. reflexivity.
Qed.

Lemma ensure_cargo_cases w :
  ensure_cargo h w =
  if which_cargo h then (Ret tt, w)
  else if cargo_path_exists h
  then (Ret tt, {| os_environ := export_cargo_to_path h (os_environ w);
                   stderr := stderr w; spawned := spawned w |})
  else if bool_decide (os_environ w !! "SETUP_DO_RUSTUP_INSTALL" = Some "1")
  then match install_rust h (os_environ w) with
       | Ret e' => (Ret tt, {| os_environ := export_cargo_to_path h e';
                               stderr := stderr w; spawned := spawned w |})
       | Raise x => (Raise x, w)
       end
  else (Raise (SystemExit 1), wrote cargo_diagnostics w).
Proof.
  unfold ensure_cargo.
  destruct (which_cargo h); simpl; [reflexivity|].
  destruct (cargo_path_exists h); [reflexivity|].
  unfold bind, environ_get.
  destruct (bool_decide _).
  - unfold environ_try, environ_update.
    destruct (install_rust h (os_environ w)); reflexivity.
  - unfold stderr_write, sys_exit, raise, wrote, cargo_diagnostics; simpl.
    rewrite <- !app_assoc. reflexivity.
Qed.

Lemma cargo_build_cases w :
  cargo_build PROJ_ROOT PLATFORM MODE path_str g h w =
  match prepare h w with
  | (Raise e, w2) => (Raise e, w2)
  | (Ret _, w2) =>
      match cargo_env g w2 with
      | (Raise e, w3) => (Raise e, w3)
      | (Ret child_env, w3) =>
          check_call h (cargo_args PLATFORM MODE ++ cargo_features)
            (Some (path_str PROJ_ROOT)) (Some child_env) w3
      end
  end.
Proof.
  unfold cargo_build, prepare, bind.
  destruct (ensure_submodule h w) as [[[]|e] w1]; [|reflexivity].
  destruct (ensure_cargo h w1) as [[[]|e] w2]; reflexivity.
Qed.

(** [cargo_env] works on a copy: the world is left as it was. *)
Lemma cargo_env_world w : (cargo_env g w).2 = w.
Proof.
  unfold cargo_env, bind, environ_copy, restore_var, dict_del, ret, raise.
  destruct (INSTRUMENT_FUZZING g); [|reflexivity].
  destruct (ORIG_CC g) as [[v|]|]; simpl; try reflexivity.
  - destruct (ORIG_CXX g) as [[v'|]|]; simpl; try reflexivity.
    destruct (_ !! "CXX"); reflexivity.
  - destruct (os_environ w !! "CC"); simpl; [|reflexivity].
    destruct (ORIG_CXX g) as [[v'|]|]; simpl; try reflexivity.
    destruct (_ !! "CXX"); reflexivity.
Qed.




End CargoBuildFacts.


Section EnvironFacts.

Import Setup.

Variable PROJ_ROOT : Path.
Variable PLATFORM : string.
Variable MODE : string.
Variable path_str : Path -> string.
Variable h : host.

(** The module block of lines 24-30, read off [module_init]. *)
Lemma module_init_fuzzing (e : environ) :
  e !! "TEST_QUESTDB_FUZZING" = Some "1" ->
  module_init e =
  ({| INSTRUMENT_FUZZING := true;
      ORIG_CC := Some (e !! "CC");
      ORIG_CXX := Some (e !! "CXX") |},
   <["CXX" := "clang++"]> (<["CC" := "clang"]> e)).
Proof.
  intros H. unfold module_init.
  rewrite bool_decide_eq_true_2 by exact H.
  rewrite lookup_insert_ne by discriminate. reflexivity.
Qed.

Lemma module_init_plain (e : environ) :
  e !! "TEST_QUESTDB_FUZZING" <> Some "1" ->
  module_init e =
  ({| INSTRUMENT_FUZZING := false; ORIG_CC := None; ORIG_CXX := None |}, e).
Proof.
  intros H. unfold module_init.
  rewrite bool_decide_eq_false_2 by exact H. reflexivity.
Qed.

(** Lines 143-151 when the globals were bound by the fuzzing block and the
    process environment still holds both variables. *)
Lemma cargo_env_fuzzing (cc cxx : option string) (w : world) :
  is_Some (os_environ w !! "CC") ->
  is_Some (os_environ w !! "CXX") ->
  exists child,
    cargo_env {| INSTRUMENT_FUZZING := true;
                 ORIG_CC := Some cc; ORIG_CXX := Some cxx |} w = (Ret child, w)
    /\ child !! "CC" = cc
    /\ child !! "CXX" = cxx
    /\ forall k, k <> "CC" -> k <> "CXX" -> child !! k = os_environ w !! k.
Proof.
  intros [vcc Hcc] [vcxx Hcxx].
  unfold cargo_env, bind, environ_copy, restore_var, dict_del, ret; simpl.
  destruct cc as [v|]; destruct cxx as [v'|]; simpl.
  - eexists. split; [reflexivity|].
    split; [rewrite lookup_insert_ne by discriminate; apply lookup_insert_eq|].
    split; [apply lookup_insert_eq|].
    intros k H1 H2. rewrite !lookup_insert_ne by congruence. reflexivity.
  - rewrite lookup_insert_ne, Hcxx by discriminate.
    eexists. split; [reflexivity|].
    split; [rewrite lookup_delete_ne by discriminate; apply lookup_insert_eq|].
    split; [apply lookup_delete_eq|].
    intros k H1 H2. rewrite lookup_delete_ne, lookup_insert_ne by congruence.
    reflexivity.
  - rewrite Hcc.
    eexists. split; [reflexivity|].
    split; [rewrite lookup_insert_ne by discriminate; apply lookup_delete_eq|].
    split; [apply lookup_insert_eq|].
    intros k H1 H2. rewrite lookup_insert_ne, lookup_delete_ne by congruence.
    reflexivity.
  - rewrite Hcc. rewrite lookup_delete_ne, Hcxx by discriminate.
    eexists. split; [reflexivity|].
    split; [rewrite lookup_delete_ne by discriminate; apply lookup_delete_eq|].
    split; [apply lookup_delete_eq|].
    intros k H1 H2. rewrite !lookup_delete_ne by congruence. reflexivity.
Qed.

(** C10: with TEST_QUESTDB_FUZZING=1 at import, once the preparation steps
    of [cargo_build] have returned and the process environment still holds
    the ['clang'] and ['clang++'] overrides, the cargo subprocess is started
    with an environment in which [CC] and [CXX] are what they were before
    the override (the original value, or absent when there was none) and
    every other variable is as in the process environment; the process
    environment itself keeps the overrides.  When nothing else changed the
    process environment since import, cargo receives the original
    environment. *)
Theorem cargo_env_restores_compilers (e0 : environ) (w w2 : world) :
  e0 !! "TEST_QUESTDB_FUZZING" = Some "1" ->
  prepare h w = (Ret tt, w2) ->
  os_environ w2 !! "CC" = Some "clang" ->
  os_environ w2 !! "CXX" = Some "clang++" ->
  exists child r,
    cargo_build PROJ_ROOT PLATFORM MODE path_str (module_init e0).1 h w =
      (r, started (cargo_call PROJ_ROOT PLATFORM MODE path_str child) w2)
    /\ child !! "CC" = e0 !! "CC"
    /\ child !! "CXX" = e0 !! "CXX"
    /\ (forall k, k <> "CC" -> k <> "CXX" -> child !! k = os_environ w2 !! k)
    /\ os_environ w2 !! "CC" = Some "clang"
    /\ os_environ w2 !! "CXX" = Some "clang++"
    /\ (os_environ w2 = (module_init e0).2 -> child = e0).
Proof.
  intros Hflag Hprep Hcc Hcxx.
  rewrite cargo_build_cases, Hprep.
  rewrite (module_init_fuzzing e0 Hflag). simpl.
  destruct (cargo_env_fuzzing (e0 !! "CC") (e0 !! "CXX") w2)
    as (child & Henv & Hc1 & Hc2 & Hother); [eauto | eauto |].
  rewrite Henv, check_call_cases. simpl.
  exists child. eexists. split; [reflexivity|].
  repeat (split; [assumption|]).
  intros Hsame. apply map_eq. intros k.
  destruct (decide (k = "CC")) as [->|Hk1]; [exact Hc1|].
  destruct (decide (k = "CXX")) as [->|Hk2]; [exact Hc2|].
  rewrite Hother, Hsame by assumption.
  rewrite !lookup_insert_ne by congruence. reflexivity.
Qed.




(** C2: no failure of [cargo_build] is passed over.  A missing submodule
    without the init flag, and a missing cargo without an installed
    toolchain or the rustup flag, end in [SystemExit(1)] after the
    diagnostic was written to stderr, with no subprocess started; a failing
    [git submodule update], a failing [install_rust] and a failing cargo
    build raise; and [cargo_build] returns only when every step it took
    succeeded and the cargo build exited with status 0.  The extension
    build of [build_ext.run] is not reached unless [cargo_build]
    returned. *)
Theorem cargo_build_failures_surface (g : globals) (w : world) :
  let build := cargo_build PROJ_ROOT PLATFORM MODE path_str g h in
  (submodule_exists h = false ->
   os_environ w !! "SETUP_DO_GIT_SUBMODULE_INIT" <> Some "1" ->
   build w = (Raise (SystemExit 1), wrote submodule_diagnostics w))
  /\ (submodule_exists h = false ->
      os_environ w !! "SETUP_DO_GIT_SUBMODULE_INIT" = Some "1" ->
      (forall status, status <> 0%Z ->
         spawn h (git_call w) = Exited status ->
         build w = (Raise (CalledProcessError status git_submodule_update),
                    started (git_call w) w)) /\
      (spawn h (git_call w) = NoSuchProgram ->
         build w = (Raise (FileNotFoundError "git"), started (git_call w) w)))
  /\ (forall w1,
        ensure_submodule h w = (Ret tt, w1) ->
        which_cargo h = false -> cargo_path_exists h = false ->
        (os_environ w1 !! "SETUP_DO_RUSTUP_INSTALL" <> Some "1" ->
         build w = (Raise (SystemExit 1), wrote cargo_diagnostics w1)) /\
        (os_environ w1 !! "SETUP_DO_RUSTUP_INSTALL" = Some "1" ->
         forall x, install_rust h (os_environ w1) = Raise x ->
                   build w = (Raise x, w1)))
  /\ (forall w2 child,
        prepare h w = (Ret tt, w2) ->
        cargo_env g w2 = (Ret child, w2) ->
        let c := cargo_call PROJ_ROOT PLATFORM MODE path_str child in
        (forall status, status <> 0%Z -> spawn h c = Exited status ->
           build w = (Raise (CalledProcessError status (args c)), started c w2)) /\
        (spawn h c = NoSuchProgram ->
           build w = (Raise (FileNotFoundError "cargo"), started c w2)))
  /\ (forall w',
        build w = (Ret tt, w') ->
        (submodule_exists h = true \/
         (os_environ w !! "SETUP_DO_GIT_SUBMODULE_INIT" = Some "1" /\
          spawn h (git_call w) = Exited 0)) /\
        (which_cargo h = true \/ cargo_path_exists h = true \/
         exists w1 e',
           ensure_submodule h w = (Ret tt, w1) /\
           os_environ w1 !! "SETUP_DO_RUSTUP_INSTALL" = Some "1" /\
           install_rust h (os_environ w1) = Ret e') /\
        exists w2 child,
          prepare h w = (Ret tt, w2) /\
          spawn h (cargo_call PROJ_ROOT PLATFORM MODE path_str child) = Exited 0 /\
          w' = started (cargo_call PROJ_ROOT PLATFORM MODE path_str child) w2)
  /\ (forall super_run e w',
        build w = (Raise e, w') ->
        build_ext_run PROJ_ROOT PLATFORM MODE path_str g h super_run w =
        (Raise e, w')).
Proof.
  intros build. subst build.
  split; [|split; [|split; [|split; [|split]]]].
  - intros Hsub Hflag.
    rewrite cargo_build_cases. unfold prepare, bind.
    rewrite ensure_submodule_cases, Hsub.
    rewrite bool_decide_eq_false_2 by exact Hflag. reflexivity.
  - intros Hsub Hflag.
    assert (Hstep : ensure_submodule h w =
                    check_call h git_submodule_update None None w).
    { rewrite ensure_submodule_cases, Hsub.
      rewrite bool_decide_eq_true_2 by exact Hflag. reflexivity. }
    split.
    + intros status Hne Hspawn.
      rewrite cargo_build_cases. unfold prepare, bind.
      rewrite Hstep, check_call_cases. simpl. fold (git_call w).
      rewrite Hspawn. destruct status; [congruence|reflexivity|reflexivity].
    + intros Hspawn.
      rewrite cargo_build_cases. unfold prepare, bind.
      rewrite Hstep, check_call_cases. simpl. fold (git_call w).
      rewrite Hspawn. reflexivity.
  - intros w1 Hsub Hwhich Hpath. split.
    + intros Hflag.
      rewrite cargo_build_cases. unfold prepare, bind.
      rewrite Hsub, ensure_cargo_cases, Hwhich, Hpath.
      rewrite bool_decide_eq_false_2 by exact Hflag. reflexivity.
    + intros Hflag x Hinst.
      rewrite cargo_build_cases. unfold prepare, bind.
      rewrite Hsub, ensure_cargo_cases, Hwhich, Hpath.
      rewrite bool_decide_eq_true_2 by exact Hflag.
      rewrite Hinst. reflexivity.
  - intros w2 child Hprep Henv c. split.
    + intros status Hne Hspawn.
      rewrite cargo_build_cases, Hprep, Henv, check_call_cases. simpl.
      fold (cargo_call PROJ_ROOT PLATFORM MODE path_str child). fold c.
      rewrite Hspawn. destruct status; [congruence|reflexivity|reflexivity].
    + intros Hspawn.
      rewrite cargo_build_cases, Hprep, Henv, check_call_cases. simpl.
      fold (cargo_call PROJ_ROOT PLATFORM MODE path_str child). fold c.
      rewrite Hspawn. unfold cargo_args.
      destruct (win32_32bit PLATFORM MODE); reflexivity.
  - intros w' Hrun.
    rewrite cargo_build_cases in Hrun.
    destruct (prepare h w) as [[[]|e] w2] eqn:Hprep; [|discriminate].
    pose proof (cargo_env_world g w2) as Hw.
    destruct (cargo_env g w2) as [[child|e] w3] eqn:Henv; [|discriminate].
    simpl in Hw. subst w3.
    apply check_call_returns in Hrun. simpl in Hrun.
    destruct Hrun as [Hspawn ->].
    unfold prepare, bind in Hprep.
    destruct (ensure_submodule h w) as [[[]|e] w1] eqn:Hsub; [|discriminate].
    split; [|split].
    + rewrite ensure_submodule_cases in Hsub.
      destruct (submodule_exists h); [left; reflexivity|right].
      case_bool_decide as Hflag; [|discriminate].
      split; [exact Hflag|].
      apply check_call_returns in Hsub. apply Hsub.
    + rewrite ensure_cargo_cases in Hprep.
      destruct (which_cargo h); [left; reflexivity|right].
      destruct (cargo_path_exists h); [left; reflexivity|right].
      case_bool_decide as Hflag; [|discriminate].
      destruct (install_rust h (os_environ w1)) as [e'|x] eqn:Hinst;
        [|discriminate].
      exists w1, e'. repeat split; assumption.
    + exists w2, child. repeat split; assumption.
  - intros super_run e w' Hrun. unfold build_ext_run, bind.
    rewrite Hrun. reflexivity.
Qed.

End EnvironFacts.



(** C2 on a checkout without the submodule and without the init flag. *)
Lemma cargo_build_failures_surface_witness :
  Setup.cargo_build ["repo"] "linux" "64bit" (String.concat "/")
    (Setup.mkGlobals false None None)
    (Setup.mkHost false true true (fun e => e) Setup.Ret
       (fun _ => Setup.Exited 0))
    (Setup.mkWorld ∅ [] []) =
  (Setup.Raise (Setup.SystemExit 1),
   Setup.wrote Setup.submodule_diagnostics (Setup.mkWorld ∅ [] [])).
Proof.
  apply (proj1 (cargo_build_failures_surface ["repo"] "linux" "64bit"
           (String.concat "/")
           (Setup.mkHost false true true (fun e => e) Setup.Ret
              (fun _ => Setup.Exited 0))
           (Setup.mkGlobals false None None) (Setup.mkWorld ∅ [] []))).
  - reflexivity.
  - intros H; vm_compute in H; discriminate.
Defined.

(** C10 on an environment that had [CC=gcc] and no [CXX] before the
    import, with the submodule and cargo in place. *)
Lemma cargo_env_restores_compilers_witness :
  exists child r,
    Setup.cargo_build ["repo"] "linux" "64bit" (String.concat "/")
      (Setup.module_init
         (<["CC" := "gcc"]> {["TEST_QUESTDB_FUZZING" := "1"]})).1
      (Setup.mkHost true true true (fun e => e) Setup.Ret
         (fun _ => Setup.Exited 0))
      (Setup.mkWorld
         (Setup.module_init
            (<["CC" := "gcc"]> {["TEST_QUESTDB_FUZZING" := "1"]})).2 [] []) =
    (r, Setup.started
          (Setup.cargo_call ["repo"] "linux" "64bit" (String.concat "/") child)
          (Setup.mkWorld
             (Setup.module_init
                (<["CC" := "gcc"]> {["TEST_QUESTDB_FUZZING" := "1"]})).2 [] []))
    /\ child !! "CC" = Some "gcc"
    /\ child !! "CXX" = None
    /\ child = <["CC" := "gcc"]> {["TEST_QUESTDB_FUZZING" := "1"]}.
Proof.
  destruct (cargo_env_restores_compilers ["repo"] "linux" "64bit"
              (String.concat "/")
              (Setup.mkHost true true true (fun e => e) Setup.Ret
                 (fun _ => Setup.Exited 0))
              (<["CC" := "gcc"]> {["TEST_QUESTDB_FUZZING" := "1"]})
              (Setup.mkWorld
                 (Setup.module_init
                    (<["CC" := "gcc"]> {["TEST_QUESTDB_FUZZING" := "1"]})).2
                 [] [])
              (Setup.mkWorld
                 (Setup.module_init
                    (<["CC" := "gcc"]> {["TEST_QUESTDB_FUZZING" := "1"]})).2
                 [] []))
    as (child & r & Hrun & Hcc & Hcxx & _ & _ & _ & Hsame).
  - vm_compute; reflexivity.
  - reflexivity.
  - vm_compute; reflexivity.
  - vm_compute; reflexivity.
  - exists child, r. split; [exact Hrun|].
    split; [rewrite Hcc; vm_compute; reflexivity|].
    split; [rewrite Hcxx; vm_compute; reflexivity|].
    apply Hsame. reflexivity.
Defined.

(* ===================================================================== *)
(** * Part IV: properties of the ingestion core                           *)
(* ===================================================================== *)

Section BufferFacts.

Import Ingress.

Context {float : Type} `{LP : LineProtocol float}.

Lemma extends_refl (b : Buffer) : extends b b.
Proof.
  repeat split. exists []. rewrite app_nil_r. reflexivity.
Qed.

Lemma extends_trans (b1 b2 b3 : Buffer) :
  extends b1 b2 -> extends b2 b3 -> extends b1 b3.
Proof.
  intros (Hc & Hm & more & Hr) (Hc' & Hm' & more' & Hr').
  repeat split; [congruence | congruence |].
  exists (more ++ more'). rewrite Hr', Hr, app_assoc. reflexivity.
Qed.

Lemma append_extends (bs : list byte) (p : phase) (cols : list string)
    (b : Buffer) :
  extends b (set_state p cols (append bs b)).
Proof.
  repeat split. exists bs. reflexivity.
Qed.

(** A column call that succeeds only writes after what is there. *)
Lemma apply_op_extends (o : @op float) (b b' : Buffer) :
  apply_op o b = Ok b' -> extends b b'.
Proof.
  destruct o as [n v | n v | t]; simpl.
  - unfold add_symbol.
    destruct (state b); try discriminate;
      destruct (check_name escape_column n); try discriminate;
      case_bool_decide; try discriminate;
      destruct (escape_symbol v); try discriminate;
      intros Hr; inversion Hr; apply append_extends.
  - unfold add_field.
    destruct (state b); try discriminate;
      destruct (check_name escape_column n); try discriminate;
      case_bool_decide; try discriminate;
      destruct (encode_value v); try discriminate;
      intros Hr; inversion Hr; apply append_extends.
  - unfold set_timestamp.
    destruct (state b); try discriminate;
      destruct (encode_timestamp t); try discriminate;
      intros Hr; inversion Hr; apply append_extends.
Qed.

Lemma apply_ops_extends (os : list (@op float)) (b : Buffer) :
  extends b (apply_ops os b).
Proof.
  revert b. induction os as [|o os IH]; intros b; simpl.
  - apply extends_refl.
  - destruct (apply_op o b) as [b'|e] eqn:E; [|apply IH].
    eapply extends_trans; [eapply apply_op_extends; exact E | apply IH].
Qed.

(** What a successful [begin_row] did. *)
Lemma begin_row_ok (t : string) (b b1 : Buffer) :
  begin_row t b = Ok b1 ->
  row_open b = false /\
  state b1 = TableSet /\
  committed_end b1 = committed_end b /\
  row_start_mark b1 = length (region b) /\
  exists bs, region b1 = region b ++ bs.
Proof.
  unfold begin_row.
  destruct (row_open b); [discriminate|].
  destruct (check_name escape_table t) as [bs|e]; [|discriminate].
  intros H; inversion H; subst; simpl.
  repeat split. exists bs. reflexivity.
Qed.

(** With no row open the cursor of a well-formed Buffer is at
    [committed_end]. *)
Lemma well_formed_closed (b : Buffer) :
  well_formed b = true -> row_open b = false ->
  committed_end b = length (region b) /\
  row_start_mark b = length (region b).
Proof.
  unfold well_formed. intros H Hclosed. rewrite Hclosed in H. simpl in H.
  apply andb_true_iff in H as [H H3]. apply andb_true_iff in H as [H1 H2].
  apply Nat.eqb_eq in H1, H3. lia.
Qed.

(** The whole of a row under construction lies after the committed bytes
    of the Buffer it was opened on. *)
Lemma row_after_committed (t : string) (os : list (@op float))
    (b b1 : Buffer) :
  well_formed b = true ->
  begin_row t b = Ok b1 ->
  let b2 := apply_ops os b1 in
  committed_end b2 = committed_end b /\
  row_start_mark b2 = length (region b) /\
  committed_end b = length (region b) /\
  exists more, region b2 = region b ++ more.
Proof.
  intros Hwf Hbegin b2.
  destruct (begin_row_ok t b b1 Hbegin) as (Hclosed & _ & Hc & Hm & bs & Hr).
  destruct (well_formed_closed b Hwf Hclosed) as [Hce _].
  destruct (apply_ops_extends os b1) as (Hc' & Hm' & more & Hr').
  fold b2 in Hc', Hm', Hr'.
  repeat split; [congruence | congruence | assumption |].
  exists (bs ++ more). rewrite Hr', Hr, app_assoc. reflexivity.
Qed.

(** Without a successful [add_field] the row stays before its fields
    phase. *)
Lemma apply_ops_no_field (os : list (@op float)) (b : Buffer) :
  Forall (fun o => is_field o = false) os ->
  state b = TableSet \/ state b = SymbolsPhase ->
  state (apply_ops os b) = TableSet \/ state (apply_ops os b) = SymbolsPhase.
Proof.
  intros Hos. revert b. induction Hos as [|o os Ho Hos IH]; intros b Hst.
  - exact Hst.
  - simpl. destruct (apply_op o b) as [b'|e] eqn:E; [|apply IH; exact Hst].
    apply IH. destruct o as [n v | n v | t]; simpl in *; [|discriminate|].
    + unfold add_symbol in E.
      destruct (state b); try discriminate;
        destruct (check_name escape_column n); try discriminate;
        case_bool_decide; try discriminate;
        destruct (escape_symbol v); try discriminate;
        inversion E; right; reflexivity.
    + unfold set_timestamp in E.
      destruct Hst as [Hst|Hst]; rewrite Hst in E; discriminate.
Qed.


End BufferFacts.

Section SenderFacts.

Import Ingress.

Context {float : Type} `{LP : LineProtocol float}.
Context {T : Type} `{TR : Transport T}.

(** C3: a row opened on a well-formed Buffer and built without any field,
    with any number of symbol and timestamp calls, cannot be committed:
    [commit_row] fails with [EmptyRowError], the committed bytes are those
    from before the row was opened, and a Session asked to commit it is
    left exactly as it was. *)
Theorem commit_empty_row_fails (t : string) (os : list (@op float))
    (b b1 : Buffer) :
  well_formed b = true ->
  begin_row t b = Ok b1 ->
  Forall (fun o => is_field o = false) os ->
  let b2 := apply_ops os b1 in
  commit_row b2 = Err EmptyRowError /\
  committed b2 = committed b /\
  forall (s : Session T) (now : nat),
    buffer s = b2 -> session_commit_row s now = (s, CommitFailed EmptyRowError).
Proof.
  intros Hwf Hbegin Hos b2.
  destruct (begin_row_ok t b b1 Hbegin) as (_ & Hstate & _).
  assert (Hst : state b2 = TableSet \/ state b2 = SymbolsPhase)
    by (apply apply_ops_no_field; [exact Hos | left; exact Hstate]).
  assert (Hcommit : commit_row b2 = Err EmptyRowError)
    by (unfold commit_row; destruct Hst as [-> | ->]; reflexivity).
  destruct (row_after_committed t os b b1 Hwf Hbegin)
    as (Hc & _ & Hce & more & Hr). fold b2 in Hc, Hr.
  split; [exact Hcommit|]. split.
  - unfold committed. rewrite Hc, Hr, Hce, take_app_length.
    rewrite take_ge by lia. reflexivity.
  - intros s now Hs. unfold session_commit_row. rewrite Hs, Hcommit.
    reflexivity.
Qed.

Lemma after_sends_succ (n : nat) (payload : list byte) (t : T) :
  after_sends (S n) payload t = after_sends n payload (fst (send t payload)).
Proof.
  unfold after_sends.
  exact (Nat.iter_succ_r n (fun t => fst (send t payload)) t).
Qed.

Lemma all_sends_fail_succ (n : nat) (payload : list byte) (t : T) :
  all_sends_fail (S n) payload t ->
  (send t payload).2 = Fault ConnectionError /\
  all_sends_fail n payload (fst (send t payload)).
Proof.
  intros H. split.
  - apply (H 0). lia.
  - intros k Hk. rewrite <- after_sends_succ. apply H. lia.
Qed.

(** The retry loop from retry number [a >= 1] on, when every send fails
    with a [ConnectionError]: all [n] attempts are made, each after its
    backoff. *)
Lemma send_with_retry_exhausts (n a base : nat) (t : T)
    (payload : list byte) (naps : list nat) :
  all_sends_fail n payload t ->
  send_with_retry n (S a) base t payload naps =
  (after_sends n payload t, naps ++ (backoff base <$> seq (S a) n),
   Err FlushError).
Proof.
  revert a t naps. induction n as [|n IH]; intros a t naps Hfail.
  - simpl. rewrite app_nil_r. reflexivity.
  - destruct (all_sends_fail_succ n payload t Hfail) as [H0 Hrest].
    cbn [send_with_retry].
    destruct (send t payload) as [t' r] eqn:E. simpl in H0, Hrest. subst r.
    rewrite (IH (S a) t' _ Hrest).
    rewrite after_sends_succ, E. simpl.
    rewrite <- app_assoc. reflexivity.
Qed.

(** The same from the first attempt, which is made without a wait. *)
Lemma send_with_retry_exhausts_first (n base : nat) (t : T)
    (payload : list byte) (naps : list nat) :
  all_sends_fail n payload t ->
  send_with_retry n 0 base t payload naps =
  (after_sends n payload t, naps ++ (backoff base <$> seq 1 (n - 1)),
   Err FlushError).
Proof.
  destruct n as [|n]; intros Hfail.
  - simpl. rewrite app_nil_r. reflexivity.
  - destruct (all_sends_fail_succ n payload t Hfail) as [H0 Hrest].
    cbn [send_with_retry].
    destruct (send t payload) as [t' r] eqn:E. simpl in H0, Hrest. subst r.
    rewrite (send_with_retry_exhausts n 0 base t' payload naps Hrest).
    rewrite after_sends_succ, E. simpl. rewrite Nat.sub_0_r. reflexivity.
Qed.

(** C6: when each of the configured number of attempts fails with a
    [ConnectionError], [flush] makes exactly that many sends of the
    committed bytes, waits the doubled backoff between them and returns
    [FlushError]; the Buffer, and with it the committed bytes, the row
    count and the time of the last flush are as before the flush.  The
    bytes can be flushed again: if the next send is acknowledged, a second
    flush delivers the same committed bytes and only then clears the
    Buffer. *)
Theorem flush_exhausted_keeps_buffer (s : Session T) (now : nat) :
  let n := retry_attempts (config s) in
  let payload := committed (buffer s) in
  all_sends_fail n payload (transport s) ->
  exists s',
    flush s now = (s', Err FlushError) /\
    buffer s' = buffer s /\
    committed (buffer s') = payload /\
    rows_since_flush s' = rows_since_flush s /\
    last_flush s' = last_flush s /\
    config s' = config s /\
    transport s' = after_sends n payload (transport s) /\
    slept s' = slept s ++ (backoff (backoff_base (config s)) <$> seq 1 (n - 1)) /\
    forall now',
      0 < n ->
      (send (transport s') payload).2 = Ack ->
      exists s'',
        flush s' now' = (s'', Ok tt) /\
        transport s'' = (send (transport s') payload).1 /\
        buffer s'' = clear (buffer s) /\
        rows_since_flush s'' = 0.
Proof.
  intros n payload Hfail.
  unfold flush. fold payload. fold n.
  rewrite (send_with_retry_exhausts_first n _ _ payload _ Hfail).
  eexists. split; [reflexivity|]. simpl.
  repeat (split; [reflexivity|]).
  intros now' Hn Hack. unfold flush; simpl. fold payload. fold n.
  destruct n as [|n']; [lia|].
  cbn [send_with_retry].
  destruct (send (after_sends (S n') payload (transport s)) payload)
    as [t' r] eqn:E.
  simpl in Hack. subst r.
  eexists. split; [reflexivity|]. simpl. repeat split.
Qed.







End SenderFacts.

(** ** The cursor invariant is kept by every operation *)

Section Invariant.

Import Ingress.

Context {float : Type} `{LP : LineProtocol float}.

Lemma well_formed_empty : well_formed empty = true.
Proof. reflexivity. Qed.

Lemma well_formed_iff (b : Buffer) :
  well_formed b = true <->
  committed_end b = row_start_mark b /\
  row_start_mark b <= length (region b) /\
  (row_open b = false -> length (region b) = row_start_mark b).
Proof.
  unfold well_formed.
  rewrite !andb_true_iff, orb_true_iff, Nat.eqb_eq, Nat.leb_le, Nat.eqb_eq.
  destruct (row_open b); intuition congruence.
Qed.

(** Writing into an open row keeps the invariant. *)
Lemma well_formed_append (bs : list byte) (p : phase) (cols : list string)
    (b : Buffer) :
  row_open (set_state p cols (append bs b)) = true ->
  well_formed b = true ->
  well_formed (set_state p cols (append bs b)) = true.
Proof.
  intros Hopen Hwf. apply well_formed_iff in Hwf as (Hc & Hm & _).
  apply well_formed_iff. simpl. rewrite length_app.
  split; [exact Hc|]. split; [lia|].
  intros Hclosed. rewrite Hopen in Hclosed. discriminate.
Qed.

Lemma begin_row_well_formed (t : string) (b b1 : Buffer) :
  well_formed b = true -> begin_row t b = Ok b1 -> well_formed b1 = true.
Proof.
  intros Hwf Hbegin.
  destruct (well_formed_closed b Hwf) as [Hce Hmark].
  { apply (begin_row_ok t b b1 Hbegin). }
  destruct (begin_row_ok t b b1 Hbegin) as (_ & Hst & Hc & Hm & bs & Hr).
  apply well_formed_iff. rewrite Hc, Hm, Hr, length_app.
  split; [exact Hce|]. split; [lia|].
  unfold row_open. rewrite Hst. discriminate.
Qed.

Lemma apply_op_well_formed (o : @op float) (b b' : Buffer) :
  well_formed b = true -> apply_op o b = Ok b' -> well_formed b' = true.
Proof.
  intros Hwf. destruct o as [n v | n v | t]; simpl.
  - unfold add_symbol.
    destruct (state b); try discriminate;
      destruct (check_name escape_column n); try discriminate;
      case_bool_decide; try discriminate;
      destruct (escape_symbol v); try discriminate;
      intros Hr; inversion Hr; apply well_formed_append;
      [reflexivity | exact Hwf | reflexivity | exact Hwf].
  - unfold add_field.
    destruct (state b); try discriminate;
      destruct (check_name escape_column n); try discriminate;
      case_bool_decide; try discriminate;
      destruct (encode_value v); try discriminate;
      intros Hr; inversion Hr; apply well_formed_append;
      solve [reflexivity | exact Hwf].
  - unfold set_timestamp.
    destruct (state b); try discriminate;
      destruct (encode_timestamp t); try discriminate;
      intros Hr; inversion Hr; apply well_formed_append;
      solve [reflexivity | exact Hwf].
Qed.

Lemma apply_ops_well_formed (os : list (@op float)) (b : Buffer) :
  well_formed b = true -> well_formed (apply_ops os b) = true.
Proof.
  revert b. induction os as [|o os IH]; intros b Hwf; simpl; [exact Hwf|].
  destruct (apply_op o b) as [b'|e] eqn:E; [|apply IH; exact Hwf].
  apply IH. eapply apply_op_well_formed; [exact Hwf | exact E].
Qed.

Lemma commit_row_well_formed (b b' : Buffer) :
  commit_row b = Ok b' -> well_formed b' = true.
Proof.
  unfold commit_row.
  destruct (state b); try discriminate;
    intros Hr; inversion Hr; apply well_formed_iff; simpl;
    repeat split; lia.
Qed.

Lemma clear_well_formed (b : Buffer) : well_formed (clear b) = true.
Proof. reflexivity. Qed.

(** [committed_end] is the number of committed bytes. *)
Lemma committed_length (b : Buffer) :
  well_formed b = true -> length (committed b) = committed_end b.
Proof.
  intros Hwf. apply well_formed_iff in Hwf as (Hc & Hm & _).
  unfold committed. rewrite length_take. lia.
Qed.

End Invariant.

(** ** Closed examples *)

(** The end-to-end row of section 8 gives the wire bytes
    [sensor,city=ldn temp=21.5 1000\n]. *)
Example sensor_row_wire_bytes :
  match @Ingress.begin_row string Ingress.raw_protocol "sensor" Ingress.empty with
  | Ingress.Ok b =>
      match Ingress.commit_row
              (@Ingress.apply_ops string Ingress.raw_protocol
                 (Ingress.calls (Ingress.sensor_row 0)) b) with
      | Ingress.Ok b' =>
          string_of_list_byte (Ingress.committed b') =
          "sensor,city=ldn temp=21.5 1000" +:+ Setup.NL
      | Ingress.Err _ => False
      end
  | Ingress.Err _ => False
  end.
Proof. vm_compute. reflexivity. Qed.


(** C3 on a row with a symbol and a timestamp call and no field. *)
Lemma commit_empty_row_fails_witness :
  exists b1,
    @Ingress.begin_row string Ingress.raw_protocol "sensor" Ingress.empty =
      Ingress.Ok b1 /\
    Ingress.commit_row
      (@Ingress.apply_ops string Ingress.raw_protocol
         [Ingress.AddSymbol "city" "ldn"; Ingress.SetTimestamp 1000] b1) =
    Ingress.Err Ingress.EmptyRowError.
Proof.
  eexists. split; [reflexivity|].
  apply (@commit_empty_row_fails string Ingress.raw_protocol
           (list (list byte)) Ingress.recorder "sensor"
           [Ingress.AddSymbol "city" "ldn"; Ingress.SetTimestamp 1000]
           Ingress.empty).
  - reflexivity.
  - reflexivity.
  - repeat constructor.
Defined.

(** C6 on a transport that is down for three sends, with three attempts
    configured: the flush fails, the row is still in the Buffer, and the
    next flush delivers it. *)
Lemma flush_exhausted_keeps_buffer_witness :
  exists s',
    @Ingress.flush nat Ingress.flaky
      (Ingress.mkSession 3 Ingress.one_row Ingress.every_second_row 1 0 []) 5 =
      (s', Ingress.Err Ingress.FlushError) /\
    Ingress.buffer s' = Ingress.one_row /\
    Ingress.slept s' = [10; 20] /\
    exists s'',
      @Ingress.flush nat Ingress.flaky s' 6 = (s'', Ingress.Ok tt) /\
      Ingress.buffer s'' = Ingress.clear Ingress.one_row.
Proof.
  destruct (@flush_exhausted_keeps_buffer nat Ingress.flaky
              (Ingress.mkSession 3 Ingress.one_row Ingress.every_second_row
                 1 0 []) 5)
    as (s' & Hflush & Hbuf & _ & _ & _ & _ & Htr & Hslept & Hagain).
  - intros k Hk. cbn in Hk.
    destruct k as [|[|[|k]]]; [reflexivity | reflexivity | reflexivity | lia].
  - exists s'. split; [exact Hflush|]. split; [exact Hbuf|].
    split; [rewrite Hslept; reflexivity|].
    destruct (Hagain 6) as (s'' & Hflush' & _ & Hbuf' & _).
    + cbn. lia.
    + rewrite Htr. reflexivity.
    + exists s''. split; [exact Hflush' | exact Hbuf'].
Defined.

(** Three rows with a row threshold of one: the second row crosses the
    threshold and is followed by the one flush of the run. *)
Example three_rows_one_flush :
  map (@Ingress.outcome_of string (list (list byte)))
    (@Ingress.run string Ingress.raw_protocol _ Ingress.recorder
       (Ingress.mkSession [] Ingress.empty Ingress.every_second_row 0 0 [])
       [Ingress.sensor_row 1; Ingress.sensor_row 2; Ingress.sensor_row 3]) =
  [Ingress.CommitOnly; Ingress.CommitFlushed (Ingress.Ok tt); Ingress.CommitOnly].
Proof. vm_compute. reflexivity. Qed.


(* ===================================================================== *)
(** * Part V: further properties of [setup.py]                            *)
(* ===================================================================== *)

Section ExtensionFacts.

Import Setup.

Variable PROJ_ROOT : Path.
Variable PLATFORM : string.
Variable MODE : string.
Variable path_str : Path -> string.
Variable g : globals.

(** The compile flag of lines 48-53. *)
Lemma ingress_flags_not_win32_32bit :
  win32_32bit PLATFORM MODE = false ->
  exists flag,
    (ingress_lib_dir_and_flags PROJ_ROOT PLATFORM MODE g).1.2 = [flag] /\
    (ingress_lib_dir_and_flags PROJ_ROOT PLATFORM MODE g).2 = [flag] /\
    flag <> "-framework".
Proof.
  intros E. unfold ingress_lib_dir_and_flags. rewrite E.
  destruct (INSTRUMENT_FUZZING g); eexists; repeat split; discriminate.
Qed.

Lemma ingress_flags_win32_32bit :
  win32_32bit PLATFORM MODE = true ->
  (ingress_lib_dir_and_flags PROJ_ROOT PLATFORM MODE g).1.2 = [] /\
  (ingress_lib_dir_and_flags PROJ_ROOT PLATFORM MODE g).2 = [].
Proof.
  intros E. unfold ingress_lib_dir_and_flags. rewrite E. split; reflexivity.
Qed.

(** [egress_extension] looks for its library in [target/release] on every
    platform and in every mode, under the platform's shared-library name;
    the ingress library directory is that same directory exactly when the
    build is not the win32 32bit one, for which cargo is given
    [--target]. *)
Theorem egress_library_location :
  (exists name,
     extra_objects (egress_extension PROJ_ROOT PLATFORM path_str) =
       [path_str (PROJ_ROOT // "target" // "release" // name)] /\
     name = if bool_decide (PLATFORM = "darwin") then "libquestdb_egress.dylib"
            else if bool_decide (PLATFORM = "win32") then "questdb_egress.dll"
            else "libquestdb_egress.so")
  /\ ((ingress_lib_dir_and_flags PROJ_ROOT PLATFORM MODE g).1.1 =
        PROJ_ROOT // "target" // "release"
      <-> ~ (PLATFORM = "win32" /\ MODE = "32bit")).
Proof.
  split.
  - unfold egress_extension.
    repeat case_bool_decide; eexists; split; reflexivity.
  - rewrite ingress_lib_dir, <- win32_32bit_false.
    destruct (win32_32bit PLATFORM MODE); split; try congruence.
    intros H. unfold path_div in H.
    apply (f_equal length) in H. rewrite !length_app in H. simpl in H. lia.
Qed.

(** A returned ingress Extension has no extra compile argument, and no
    extra link argument, exactly in the win32 32bit build, whatever the
    fuzzing switch; in every other build it has exactly one compile
    argument. *)
Theorem ingress_flags_dropped_on_win32_32bit (ext : Extension) :
  ingress_extension PROJ_ROOT PLATFORM MODE path_str g = Ret ext ->
  (extra_compile_args ext = [] <-> PLATFORM = "win32" /\ MODE = "32bit")
  /\ (extra_link_args ext = [] <-> PLATFORM = "win32" /\ MODE = "32bit")
  /\ (~ (PLATFORM = "win32" /\ MODE = "32bit") ->
      extra_compile_args ext =
        [if INSTRUMENT_FUZZING g then "-fsanitize=fuzzer-no-link" else "-flto"]).
Proof.
  intros Hext.
  destruct (ingress_extension_objects PROJ_ROOT PLATFORM MODE path_str g ext Hext)
    as (Hc & (more & Hl) & _).
  rewrite <- win32_32bit_false, <- win32_32bit_spec.
  destruct (win32_32bit PLATFORM MODE) eqn:E.
  - destruct (ingress_flags_win32_32bit E) as [Hc' Hl'].
    rewrite Hc' in Hc. rewrite Hl' in Hl. simpl in Hl.
    split; [split; auto|]. split; [|congruence].
    split; [auto|intros _].
    (* on win32 the platform switch adds no link argument *)
    apply win32_32bit_spec in E as [Hp _].
    unfold ingress_extension in Hext.
    destruct (ingress_lib_dir_and_flags PROJ_ROOT PLATFORM MODE g)
      as [[lib_dir cflags] lflags]. simpl in Hl'. subst lflags.
    unfold ingress_platform in Hext. subst PLATFORM. simpl in Hext.
    inversion Hext. reflexivity.
  - destruct (ingress_flags_not_win32_32bit E) as (flag & Hc' & Hl' & _).
    rewrite Hc' in Hc. rewrite Hl' in Hl.
    split; [split; [congruence|discriminate]|].
    split; [split; [rewrite Hl; discriminate|discriminate]|].
    intros _. rewrite Hc.
    unfold ingress_lib_dir_and_flags in Hc'. rewrite E in Hc'.
    destruct (INSTRUMENT_FUZZING g); simpl in Hc'; congruence.
Qed.

(** A returned ingress Extension links the Windows system libraries
    exactly on win32 and the macOS frameworks exactly on darwin; it never
    sets a library directory and always names two static libraries. *)
Theorem ingress_platform_libraries (ext : Extension) :
  ingress_extension PROJ_ROOT PLATFORM MODE path_str g = Ret ext ->
  (libraries ext <> [] <-> PLATFORM = "win32")
  /\ ("-framework" ∈ extra_link_args ext <-> PLATFORM = "darwin")
  /\ library_dirs ext = []
  /\ length (extra_objects ext) = 2.
Proof.
  unfold ingress_extension.
  assert (Hfl : forall x, x ∈ (ingress_lib_dir_and_flags PROJ_ROOT PLATFORM MODE g).2 ->
                          x <> "-framework").
  { intros x. unfold ingress_lib_dir_and_flags.
    destruct (win32_32bit PLATFORM MODE); [intros H; inversion H|].
    destruct (INSTRUMENT_FUZZING g); intros H;
      apply list_elem_of_In in H; simpl in H;
      destruct H as [<-|[]]; discriminate. }
  destruct (ingress_lib_dir_and_flags PROJ_ROOT PLATFORM MODE g)
    as [[lib_dir cflags] lflags]. simpl in Hfl.
  unfold ingress_platform.
  destruct (decide (PLATFORM = "darwin")) as [Hd|Hd].
  - rewrite bool_decide_eq_true_2 by exact Hd.
    intros Hr; injection Hr as Hr; subst ext; simpl.
    split; [split; [intros Hn; exfalso; apply Hn; reflexivity
                   | intros Hw; congruence]|].
    split; [split; [intros _; exact Hd|intros _]|split; reflexivity].
    apply elem_of_app. right. apply list_elem_of_In. simpl; auto.
  - rewrite bool_decide_eq_false_2 by exact Hd.
    destruct (decide (PLATFORM = "win32")) as [Hw|Hw].
    + rewrite bool_decide_eq_true_2 by exact Hw.
      intros Hr; injection Hr as Hr; subst ext; simpl.
      split; [split; [intros _; exact Hw | intros _; discriminate]|].
      split; [split; [|intros Hd'; contradiction]|split; reflexivity].
      intros Hin. exfalso. exact (Hfl _ Hin eq_refl).
    + rewrite bool_decide_eq_false_2 by exact Hw.
      destruct (decide (PLATFORM = "linux")) as [Hl|Hl].
      * rewrite bool_decide_eq_true_2 by exact Hl.
        intros Hr; injection Hr as Hr; subst ext; simpl.
        split; [split; [intros Hn; exfalso; apply Hn; reflexivity
                       | intros Hw'; contradiction]|].
        split; [split; [|intros Hd'; contradiction]|split; reflexivity].
        intros Hin. exfalso. exact (Hfl _ Hin eq_refl).
      * rewrite bool_decide_eq_false_2 by exact Hl. discriminate.
Qed.

(** The platform switch of lines 55-67 on a platform it does not know. *)
Lemma ingress_extension_unsupported :
  PLATFORM <> "darwin" -> PLATFORM <> "win32" -> PLATFORM <> "linux" ->
  ingress_extension PROJ_ROOT PLATFORM MODE path_str g =
  Raise (NotImplementedError ("Unsupported platform: " +:+ PLATFORM)).
Proof.
  intros Hd Hw Hl. unfold ingress_extension.
  destruct (ingress_lib_dir_and_flags PROJ_ROOT PLATFORM MODE g)
    as [[lib_dir cflags] lflags].
  unfold ingress_platform.
  rewrite !bool_decide_eq_false_2 by assumption. reflexivity.
Qed.

(** [ext_modules] returns exactly when the platform is one of darwin,
    win32 and linux and [cythonize] returns; the result is then what
    [cythonize] made of the ingress extension followed by the egress
    extension, which is not passed through [cythonize].  On any other
    platform it raises the [NotImplementedError] of [ingress_extension],
    although [egress_extension] alone has an answer there. *)
Theorem ext_modules_result
    (cythonize : list Extension -> outcome (list Extension)) :
  let run := ext_modules PROJ_ROOT PLATFORM MODE path_str g cythonize in
  let egress := egress_extension PROJ_ROOT PLATFORM path_str in
  (PLATFORM <> "darwin" -> PLATFORM <> "win32" -> PLATFORM <> "linux" ->
   run = Raise (NotImplementedError ("Unsupported platform: " +:+ PLATFORM)))
  /\ (forall exts,
        run = Ret exts ->
        (PLATFORM = "darwin" \/ PLATFORM = "win32" \/ PLATFORM = "linux") /\
        exists ingress built,
          ingress_extension PROJ_ROOT PLATFORM MODE path_str g = Ret ingress /\
          cythonize [ingress] = Ret built /\
          exts = built ++ [egress] /\
          last exts = Some egress)
  /\ (forall ingress built,
        ingress_extension PROJ_ROOT PLATFORM MODE path_str g = Ret ingress ->
        cythonize [ingress] = Ret built ->
        run = Ret (built ++ [egress]))
  /\ (forall ingress e,
        ingress_extension PROJ_ROOT PLATFORM MODE path_str g = Ret ingress ->
        cythonize [ingress] = Raise e ->
        run = Raise e).
Proof.
  intros run egress. subst run egress. unfold ext_modules.
  split; [|split; [|split]].
  - intros Hd Hw Hl.
    rewrite (ingress_extension_unsupported Hd Hw Hl). reflexivity.
  - intros exts Hrun.
    destruct (ingress_extension PROJ_ROOT PLATFORM MODE path_str g)
      as [ingress|e] eqn:Hi; [|discriminate].
    destruct (cythonize [ingress]) as [built|e] eqn:Hc; [|discriminate].
    inversion Hrun; subst. simpl. split.
    + destruct (decide (PLATFORM = "darwin")) as [|Hd]; [auto|].
      destruct (decide (PLATFORM = "win32")) as [|Hw]; [auto|].
      destruct (decide (PLATFORM = "linux")) as [|Hl]; [auto|].
      rewrite (ingress_extension_unsupported Hd Hw Hl) in Hi. discriminate.
    + exists ingress, built. repeat split; [assumption|].
      apply last_snoc.
  - intros ingress built Hi Hc. rewrite Hi, Hc. reflexivity.
  - intros ingress e Hi Hc. rewrite Hi, Hc. reflexivity.
Qed.

End ExtensionFacts.

Section BuildFacts.

Import Setup.

Variable PROJ_ROOT : Path.
Variable PLATFORM : string.
Variable MODE : string.
Variable path_str : Path -> string.
Variable h : host.

Lemma cargo_build_split (g : globals) (w : world) :
  cargo_build PROJ_ROOT PLATFORM MODE path_str g h w =
  match ensure_submodule h w with
  | (Raise e, w1) => (Raise e, w1)
  | (Ret _, w1) => build_after_submodule PROJ_ROOT PLATFORM MODE path_str g h w1
  end.
Proof.
  unfold cargo_build, build_after_submodule, bind.
  destruct (ensure_submodule h w) as [[[]|e] w1]; reflexivity.
Qed.

(** The cargo call is not the git call. *)
Lemma cargo_call_not_git (child : environ) (w : world) :
  cargo_call PROJ_ROOT PLATFORM MODE path_str child <> git_call w.
Proof.
  intros H. apply (f_equal args) in H. simpl in H.
  unfold cargo_args in H. destruct (win32_32bit PLATFORM MODE); discriminate.
Qed.

(** After the submodule check: either no process is started, and stderr is
    written only together with [SystemExit(1)], or the one cargo process
    is started and stderr is left alone. *)
Lemma build_after_submodule_effect (g : globals) (w1 : world) :
  let res := build_after_submodule PROJ_ROOT PLATFORM MODE path_str g h w1 in
  (spawned res.2 = spawned w1 /\
   (forall u, res.1 <> Ret u) /\
   (stderr res.2 = stderr w1 \/
    (res.1 = Raise (SystemExit 1) /\
     stderr res.2 = stderr w1 ++ cargo_diagnostics /\
     which_cargo h = false /\ cargo_path_exists h = false)))
  \/ (exists child,
        spawned res.2 = spawned w1 ++ [cargo_call PROJ_ROOT PLATFORM MODE path_str child] /\
        stderr res.2 = stderr w1).
Proof.
  intros res. subst res. unfold build_after_submodule, bind.
  assert (Htail : forall w2 : world,
            spawned w2 = spawned w1 -> stderr w2 = stderr w1 ->
            let res := match cargo_env g w2 with
                       | (Ret child_env, w3) =>
                           check_call h (cargo_args PLATFORM MODE ++ cargo_features)
                             (Some (path_str PROJ_ROOT)) (Some child_env) w3
                       | (Raise e, w3) => (Raise e, w3)
                       end in
            (spawned res.2 = spawned w1 /\ (forall u, res.1 <> Ret u) /\
             stderr res.2 = stderr w1)
            \/ (exists child,
                  spawned res.2 = spawned w1 ++
                    [cargo_call PROJ_ROOT PLATFORM MODE path_str child] /\
                  stderr res.2 = stderr w1)).
  { intros w2 Hsp Hse. pose proof (cargo_env_world g w2) as Hw.
    destruct (cargo_env g w2) as [[child|e] w3]; simpl in Hw; subst w3; simpl.
    - right. exists child. rewrite check_call_cases. simpl.
      rewrite Hsp, Hse. split; reflexivity.
    - left. repeat split; [assumption | discriminate | assumption]. }
  rewrite ensure_cargo_cases.
  destruct (which_cargo h) eqn:Hwhich.
  { destruct (Htail w1 eq_refl eq_refl) as [(A & B & C)|D]; [left|right]; auto. }
  destruct (cargo_path_exists h) eqn:Hpath.
  { destruct (Htail {| os_environ := export_cargo_to_path h (os_environ w1);
                       stderr := stderr w1; spawned := spawned w1 |}
                eq_refl eq_refl) as [(A & B & C)|D]; [left|right]; auto. }
  case_bool_decide as Hflag.
  - destruct (install_rust h (os_environ w1)) as [e'|x].
    + destruct (Htail {| os_environ := export_cargo_to_path h e';
                         stderr := stderr w1; spawned := spawned w1 |}
                  eq_refl eq_refl) as [(A & B & C)|D]; [left|right]; auto.
    + left. simpl. repeat split; [discriminate | left; reflexivity].
  - left. simpl. repeat split; [discriminate | right; repeat split].
Qed.

(** [cargo_build] starts at most two processes, in this order: [git
    submodule update], with the process environment and working
    directory, and then the cargo build; git is started exactly when the
    submodule is missing and SETUP_DO_GIT_SUBMODULE_INIT is ['1']. *)
Theorem cargo_build_spawn_order (g : globals) (w : world) :
  exists new,
    spawned (cargo_build PROJ_ROOT PLATFORM MODE path_str g h w).2 =
      spawned w ++ new /\
    (new = [] \/ new = [git_call w] \/
     (exists child, new = [cargo_call PROJ_ROOT PLATFORM MODE path_str child]) \/
     (exists child,
        new = [git_call w; cargo_call PROJ_ROOT PLATFORM MODE path_str child])) /\
    ((exists rest, new = git_call w :: rest) <->
     submodule_exists h = false /\
     os_environ w !! "SETUP_DO_GIT_SUBMODULE_INIT" = Some "1").
Proof.
  rewrite cargo_build_split, ensure_submodule_cases.
  destruct (submodule_exists h) eqn:Hsub.
  - destruct (build_after_submodule_effect g w)
      as [(Hsp & _)|(child & Hsp & _)].
    + exists []. rewrite app_nil_r. split; [exact Hsp|]. split; [auto|].
      split; [intros (rest & Hr); discriminate | intros [? _]; discriminate].
    + exists [cargo_call PROJ_ROOT PLATFORM MODE path_str child].
      split; [exact Hsp|]. split; [eauto|].
      split; [|intros [? _]; discriminate].
      intros (rest & Hr).
      exfalso. apply (cargo_call_not_git child w). congruence.
  - case_bool_decide as Hflag.
    + rewrite check_call_cases. simpl. fold (git_call w).
      destruct (spawn h (git_call w)) as [[| |]|];
        try (exists [git_call w]; split; [reflexivity|]; split; [auto|];
             split; [auto | intros _; eexists; reflexivity]).
      destruct (build_after_submodule_effect g (started (git_call w) w))
        as [(Hsp & _)|(child & Hsp & _)].
      * exists [git_call w]. split; [exact Hsp|]. split; [auto|].
        split; [auto | intros _; eexists; reflexivity].
      * exists [git_call w; cargo_call PROJ_ROOT PLATFORM MODE path_str child].
        split; [rewrite Hsp; simpl; rewrite <- app_assoc; reflexivity|].
        split; [eauto 6|].
        split; [auto | intros _; eexists; reflexivity].
    + exists []. simpl. rewrite app_nil_r. split; [reflexivity|].
      split; [auto|].
      split; [intros (rest & Hr); discriminate | intros [_ ?]; contradiction].
Qed.

(** [cargo_build] writes to stderr only when it exits: either stderr is
    as it was, or the result is [SystemExit(1)] and exactly one of the two
    diagnostics was appended, the submodule one only when the submodule is
    missing and the cargo one only when cargo is neither on the PATH nor
    at its install path. *)
Theorem cargo_build_stderr (g : globals) (w : world) :
  let res := cargo_build PROJ_ROOT PLATFORM MODE path_str g h w in
  stderr res.2 = stderr w
  \/ (res.1 = Raise (SystemExit 1) /\
      stderr res.2 = stderr w ++ submodule_diagnostics /\
      submodule_exists h = false)
  \/ (res.1 = Raise (SystemExit 1) /\
      stderr res.2 = stderr w ++ cargo_diagnostics /\
      which_cargo h = false /\ cargo_path_exists h = false).
Proof.
  intros res. subst res.
  assert (Hafter : forall w1 : world, stderr w1 = stderr w ->
            let res := build_after_submodule PROJ_ROOT PLATFORM MODE path_str g h w1 in
            stderr res.2 = stderr w
            \/ (res.1 = Raise (SystemExit 1) /\
                stderr res.2 = stderr w ++ cargo_diagnostics /\
                which_cargo h = false /\ cargo_path_exists h = false)).
  { intros w1 Hse.
    destruct (build_after_submodule_effect g w1)
      as [(_ & _ & [Hs|(Hr & Hs & Hw & Hp)])|(child & _ & Hs)]; simpl.
    - left. congruence.
    - right. rewrite <- Hse. auto.
    - left. congruence. }
  rewrite cargo_build_split, ensure_submodule_cases.
  destruct (submodule_exists h) eqn:Hsub.
  - destruct (Hafter w eq_refl) as [H1|H2]; [left|right; right]; assumption.
  - case_bool_decide as Hflag.
    + rewrite check_call_cases. simpl.
      destruct (spawn h _) as [[| |]|]; try (left; reflexivity).
      destruct (Hafter (started (git_call w) w) eq_refl) as [H1|H2];
        [left|right; right]; assumption.
    + right; left. repeat split.
Qed.

(** Without the fuzzing switch the environment block is a plain copy. *)
Lemma cargo_env_plain (g : globals) (w : world) :
  INSTRUMENT_FUZZING g = false -> cargo_env g w = (Ret (os_environ w), w).
Proof.
  intros Hg. unfold cargo_env, bind, environ_copy. rewrite Hg. reflexivity.
Qed.

(** The cargo step of an unfuzzed build, from the world [w2] the
    preparation left. *)
Lemma cargo_build_plain (g : globals) (w w2 : world) :
  INSTRUMENT_FUZZING g = false ->
  prepare h w = (Ret tt, w2) ->
  let c := cargo_call PROJ_ROOT PLATFORM MODE path_str (os_environ w2) in
  cargo_build PROJ_ROOT PLATFORM MODE path_str g h w =
  (match spawn h c with
   | Exited 0 => Ret tt
   | Exited status => Raise (CalledProcessError status (args c))
   | NoSuchProgram => Raise (FileNotFoundError "cargo")
   end, started c w2).
Proof.
  intros Hg Hprep c.
  rewrite cargo_build_cases, Hprep, (cargo_env_plain g w2 Hg).
  rewrite check_call_cases. simpl.
  fold (cargo_call PROJ_ROOT PLATFORM MODE path_str (os_environ w2)). fold c.
  destruct (spawn h c) as [[| |]|]; try reflexivity.
  unfold cargo_args. destruct (win32_32bit PLATFORM MODE); reflexivity.
Qed.

(** In a checkout with the submodule and with cargo on the PATH, imported
    without the fuzzing switch, [cargo_build] does one thing: it runs the
    cargo build in [PROJ_ROOT] with the process environment.  It returns
    exactly when cargo exits with status 0, writes nothing to stderr and
    leaves the process environment alone. *)
Theorem cargo_build_ready_checkout (e0 : environ) (w : world) :
  e0 !! "TEST_QUESTDB_FUZZING" <> Some "1" ->
  submodule_exists h = true ->
  which_cargo h = true ->
  let c := cargo_call PROJ_ROOT PLATFORM MODE path_str (os_environ w) in
  let res := cargo_build PROJ_ROOT PLATFORM MODE path_str (module_init e0).1 h w in
  res.2 = started c w
  /\ (res.1 = Ret tt <-> spawn h c = Exited 0)
  /\ (forall status, spawn h c = Exited status -> status <> 0%Z ->
        res.1 = Raise (CalledProcessError status (args c)))
  /\ (spawn h c = NoSuchProgram -> res.1 = Raise (FileNotFoundError "cargo")).
Proof.
  intros Hflag Hsub Hwhich c res.
  assert (Hprep : prepare h w = (Ret tt, w)).
  { unfold prepare, bind.
    rewrite ensure_submodule_cases, Hsub, ensure_cargo_cases, Hwhich.
    reflexivity. }
  assert (Hg : INSTRUMENT_FUZZING (module_init e0).1 = false)
    by (rewrite (module_init_plain e0 Hflag); reflexivity).
  subst res. rewrite (cargo_build_plain _ w w Hg Hprep). fold c. simpl.
  split; [reflexivity|].
  destruct (spawn h c) as [[| |]|]; repeat split;
    try discriminate; try congruence;
    intros status Hs Hne; injection Hs as <-; reflexivity.
Qed.

(** When cargo is not on the PATH, an unfuzzed build runs cargo with, and
    leaves the process in, the environment made by [export_cargo_to_path]:
    from the process environment when cargo is at its install path
    (whatever SETUP_DO_RUSTUP_INSTALL says, [install_rust] plays no part),
    and from what [install_rust] returned when it is not and
    SETUP_DO_RUSTUP_INSTALL is ['1']. *)
Theorem cargo_build_exports_cargo (g : globals) (w : world) :
  INSTRUMENT_FUZZING g = false ->
  submodule_exists h = true ->
  which_cargo h = false ->
  let after e := started (cargo_call PROJ_ROOT PLATFORM MODE path_str e)
                   {| os_environ := e; stderr := stderr w; spawned := spawned w |} in
  (cargo_path_exists h = true ->
   (cargo_build PROJ_ROOT PLATFORM MODE path_str g h w).2 =
   after (export_cargo_to_path h (os_environ w)))
  /\ (cargo_path_exists h = false ->
      os_environ w !! "SETUP_DO_RUSTUP_INSTALL" = Some "1" ->
      forall e', install_rust h (os_environ w) = Ret e' ->
      (cargo_build PROJ_ROOT PLATFORM MODE path_str g h w).2 =
      after (export_cargo_to_path h e')).
Proof.
  intros Hg Hsub Hwhich after.
  assert (Hprep : prepare h w = ensure_cargo h w).
  { unfold prepare, bind. rewrite ensure_submodule_cases, Hsub.
    destruct (ensure_cargo h w) as [[[]|e] w2]; reflexivity. }
  split.
  - intros Hpath.
    rewrite ensure_cargo_cases, Hwhich, Hpath in Hprep.
    rewrite (cargo_build_plain g w _ Hg Hprep). reflexivity.
  - intros Hpath Hflag e' Hinst.
    rewrite ensure_cargo_cases, Hwhich, Hpath in Hprep.
    rewrite bool_decide_eq_true_2, Hinst in Hprep by exact Hflag.
    rewrite (cargo_build_plain g w _ Hg Hprep). reflexivity.
Qed.

(** With the globals of the import block the environment block of
    [cargo_build] never meets an unbound [ORIG_CC] or [ORIG_CXX]: it
    returns, or it raises [KeyError] for [CC] or [CXX], and that only under
    fuzzing for a variable that had no value at import and is not in the
    process environment any more. *)
Theorem cargo_env_never_unbound (e0 : environ) (w : world) :
  let g := (module_init e0).1 in
  (exists child, cargo_env g w = (Ret child, w))
  \/ (exists k,
        (k = "CC" \/ k = "CXX") /\
        cargo_env g w = (Raise (KeyError k), w) /\
        e0 !! "TEST_QUESTDB_FUZZING" = Some "1" /\
        e0 !! k = None /\
        os_environ w !! k = None).
Proof.
  intros g. subst g.
  destruct (decide (e0 !! "TEST_QUESTDB_FUZZING" = Some "1")) as [Hflag|Hflag].
  - rewrite (module_init_fuzzing e0 Hflag). simpl.
    unfold cargo_env, bind, environ_copy, restore_var, dict_del, ret, raise.
    simpl.
    destruct (e0 !! "CC") as [v|] eqn:Hcc; simpl.
    + destruct (e0 !! "CXX") as [v'|] eqn:Hcxx; simpl; [left; eauto|].
      rewrite lookup_insert_ne by discriminate.
      destruct (os_environ w !! "CXX") eqn:Hx; [left; eauto|].
      right. exists "CXX". repeat split; auto.
    + destruct (os_environ w !! "CC") eqn:Hc; simpl.
      * destruct (e0 !! "CXX") as [v'|] eqn:Hcxx; simpl; [left; eauto|].
        rewrite lookup_delete_ne by discriminate.
        destruct (os_environ w !! "CXX") eqn:Hx; [left; eauto|].
        right. exists "CXX". repeat split; auto.
      * right. exists "CC". repeat split; auto.
  - rewrite (module_init_plain e0 Hflag). left.
    exists (os_environ w). reflexivity.
Qed.

(** Under fuzzing, when [CC] had no value at import and is no longer in
    the process environment once the preparation is done, [cargo_build]
    raises [KeyError('CC')] from [del env['CC']] and cargo is not started;
    the same holds for [CXX] when the [CC] step went through. *)
Theorem cargo_build_missing_override (e0 : environ) (w w2 : world) :
  e0 !! "TEST_QUESTDB_FUZZING" = Some "1" ->
  prepare h w = (Ret tt, w2) ->
  let build := cargo_build PROJ_ROOT PLATFORM MODE path_str (module_init e0).1 h in
  (e0 !! "CC" = None -> os_environ w2 !! "CC" = None ->
   build w = (Raise (KeyError "CC"), w2))
  /\ (e0 !! "CXX" = None -> os_environ w2 !! "CXX" = None ->
      is_Some (e0 !! "CC") \/ is_Some (os_environ w2 !! "CC") ->
      build w = (Raise (KeyError "CXX"), w2)).
Proof.
  intros Hflag Hprep build. subst build.
  rewrite cargo_build_cases, Hprep, (module_init_fuzzing e0 Hflag).
  unfold cargo_env, bind, environ_copy, restore_var, dict_del, ret, raise.
  simpl. split.
  - intros Hcc Hnow. rewrite Hcc. simpl. rewrite Hnow. reflexivity.
  - intros Hcxx Hnow Hcc. rewrite Hcxx.
    destruct (e0 !! "CC") as [v|] eqn:Hcc0; simpl.
    + rewrite lookup_insert_ne, Hnow by discriminate. reflexivity.
    + destruct Hcc as [[v Hv]|[v Hv]]; [discriminate|].
      rewrite Hv. simpl.
      rewrite lookup_delete_ne, Hnow by discriminate. reflexivity.
Qed.

(** [questdb_build_ext.run] under fuzzing, in a ready checkout whose
    process environment is as the import left it: when cargo, started with
    the environment from before the import, exits with status 0, the
    inherited [run] starts in a process environment that still has
    [CC=clang] and [CXX=clang++], with nothing written to stderr.  In
    general the inherited [run] starts in the world [cargo_build] left. *)
Theorem build_ext_run_under_fuzzing (e0 : environ) (w : world)
    (super_run : M unit) :
  e0 !! "TEST_QUESTDB_FUZZING" = Some "1" ->
  submodule_exists h = true ->
  which_cargo h = true ->
  os_environ w = (module_init e0).2 ->
  spawn h (cargo_call PROJ_ROOT PLATFORM MODE path_str e0) = Exited 0 ->
  let g := (module_init e0).1 in
  let w' := started (cargo_call PROJ_ROOT PLATFORM MODE path_str e0) w in
  build_ext_run PROJ_ROOT PLATFORM MODE path_str g h super_run w = super_run w'
  /\ os_environ w' !! "CC" = Some "clang"
  /\ os_environ w' !! "CXX" = Some "clang++"
  /\ stderr w' = stderr w
  /\ (forall g0 w0 w1,
        cargo_build PROJ_ROOT PLATFORM MODE path_str g0 h w0 = (Ret tt, w1) ->
        build_ext_run PROJ_ROOT PLATFORM MODE path_str g0 h super_run w0 =
        super_run w1).
Proof.
  intros Hflag Hsub Hwhich Henv Hspawn g w'. subst g w'.
  assert (Hprep : prepare h w = (Ret tt, w)).
  { unfold prepare, bind.
    rewrite ensure_submodule_cases, Hsub, ensure_cargo_cases, Hwhich.
    reflexivity. }
  assert (Hinit := module_init_fuzzing e0 Hflag).
  rewrite Hinit in Henv. simpl in Henv.
  assert (Hcopy : cargo_env (module_init e0).1 w = (Ret e0, w)).
  { rewrite Hinit. simpl.
    destruct (cargo_env_fuzzing (e0 !! "CC") (e0 !! "CXX") w)
      as (child & Hce & Hc1 & Hc2 & Hother).
    - rewrite Henv, lookup_insert_ne by discriminate.
      rewrite lookup_insert_eq. eauto.
    - rewrite Henv, lookup_insert_eq. eauto.
    - rewrite Hce. f_equal. f_equal. apply map_eq. intros k.
      destruct (decide (k = "CC")) as [->|Hk1]; [exact Hc1|].
      destruct (decide (k = "CXX")) as [->|Hk2]; [exact Hc2|].
      rewrite Hother, Henv by assumption.
      rewrite !lookup_insert_ne by congruence. reflexivity. }
  split; [|split; [|split; [|split]]].
  - unfold build_ext_run, bind.
    rewrite cargo_build_cases, Hprep, Hcopy, check_call_cases. simpl.
    fold (cargo_call PROJ_ROOT PLATFORM MODE path_str e0).
    rewrite Hspawn. reflexivity.
  - simpl. rewrite Henv, lookup_insert_ne by discriminate.
    apply lookup_insert_eq.
  - simpl. rewrite Henv. apply lookup_insert_eq.
  - reflexivity.
  - intros g0 w0 w1 Hrun. unfold build_ext_run, bind. rewrite Hrun.
    reflexivity.
Qed.

End BuildFacts.

(** The egress library on 32-bit Windows is looked up in
    [target\release], which is not the ingress library directory there. *)
Lemma egress_library_location_witness :
  (Setup.ingress_lib_dir_and_flags ["repo"] "linux" "64bit"
     (Setup.mkGlobals false None None)).1.1 = ["repo"; "target"; "release"]
  /\ (Setup.ingress_lib_dir_and_flags ["repo"] "win32" "32bit"
        (Setup.mkGlobals false None None)).1.1 <> ["repo"; "target"; "release"].
Proof.
  split.
  - apply (proj2 (egress_library_location ["repo"] "linux" "64bit"
                    (String.concat "/") (Setup.mkGlobals false None None))).
    intros [? _]; discriminate.
  - intros H.
    apply (proj2 (egress_library_location ["repo"] "win32" "32bit"
                    (String.concat "\") (Setup.mkGlobals false None None)))
      in H.
    apply H. split; reflexivity.
Defined.

(** The fuzzing build on 32-bit Windows gets no sanitizer flag. *)
Lemma ingress_flags_dropped_on_win32_32bit_witness :
  exists ext,
    Setup.ingress_extension ["repo"] "win32" "32bit" (String.concat "\")
      (Setup.mkGlobals true (Some None) (Some None)) = Setup.Ret ext /\
    Setup.extra_compile_args ext = [] /\
    Setup.extra_link_args ext = [].
Proof.
  eexists. split; [reflexivity|].
  split.
  - eapply (ingress_flags_dropped_on_win32_32bit ["repo"] "win32" "32bit"
              (String.concat "\") (Setup.mkGlobals true (Some None) (Some None)));
      [reflexivity | split; reflexivity].
  - eapply (ingress_flags_dropped_on_win32_32bit ["repo"] "win32" "32bit"
              (String.concat "\") (Setup.mkGlobals true (Some None) (Some None)));
      [reflexivity | split; reflexivity].
Defined.

(** On macOS the frameworks are linked and no system library is. *)
Lemma ingress_platform_libraries_witness :
  exists ext,
    Setup.ingress_extension ["repo"] "darwin" "64bit" (String.concat "/")
      (Setup.mkGlobals false None None) = Setup.Ret ext /\
    "-framework" ∈ Setup.extra_link_args ext /\
    length (Setup.extra_objects ext) = 2.
Proof.
  eexists. split; [reflexivity|].
  destruct (ingress_platform_libraries ["repo"] "darwin" "64bit"
              (String.concat "/") (Setup.mkGlobals false None None) _ eq_refl)
    as (_ & Hfw & _ & Hlen).
  split; [apply Hfw; reflexivity | exact Hlen].
Defined.

(** On FreeBSD [ext_modules] raises, with a [cythonize] that would have
    returned its argument. *)
Lemma ext_modules_result_witness :
  Setup.ext_modules ["repo"] "freebsd" "64bit" (String.concat "/")
    (Setup.mkGlobals false None None) Setup.Ret =
  Setup.Raise (Setup.NotImplementedError "Unsupported platform: freebsd").
Proof.
  apply (proj1 (ext_modules_result ["repo"] "freebsd" "64bit"
                  (String.concat "/") (Setup.mkGlobals false None None)
                  Setup.Ret)); discriminate.
Defined.

(** A checkout without the submodule, with the init flag set: git runs
    first. *)
Lemma cargo_build_spawn_order_witness :
  exists new rest,
    Setup.spawned
      (Setup.cargo_build ["repo"] "linux" "64bit" (String.concat "/")
         (Setup.mkGlobals false None None)
         (Setup.mkHost false true true (fun e => e) Setup.Ret
            (fun _ => Setup.Exited 0))
         (Setup.mkWorld {["SETUP_DO_GIT_SUBMODULE_INIT" := "1"]} [] [])).2 =
      [] ++ new /\
    new = Setup.git_call
            (Setup.mkWorld {["SETUP_DO_GIT_SUBMODULE_INIT" := "1"]} [] [])
          :: rest.
Proof.
  destruct (cargo_build_spawn_order ["repo"] "linux" "64bit" (String.concat "/")
              (Setup.mkHost false true true (fun e => e) Setup.Ret
                 (fun _ => Setup.Exited 0))
              (Setup.mkGlobals false None None)
              (Setup.mkWorld {["SETUP_DO_GIT_SUBMODULE_INIT" := "1"]} [] []))
    as (new & Hsp & _ & Hgit).
  destruct (proj2 Hgit) as (rest & Hrest).
  - split; [reflexivity | vm_compute; reflexivity].
  - exists new, rest. split; [exact Hsp | exact Hrest].
Defined.

(** A ready checkout in which cargo fails with status 101. *)
Lemma cargo_build_ready_checkout_witness :
  (Setup.cargo_build ["repo"] "linux" "64bit" (String.concat "/")
     (Setup.module_init {["HOME" := "/root"]}).1
     (Setup.mkHost true true true (fun e => e) Setup.Ret
        (fun _ => Setup.Exited 101))
     (Setup.mkWorld {["HOME" := "/root"]} [] [])).1 =
  Setup.Raise
    (Setup.CalledProcessError 101
       ["cargo"; "build"; "--release"; "--features";
        "questdb-rs-ffi/confstr-ffi"]).
Proof.
  destruct (cargo_build_ready_checkout ["repo"] "linux" "64bit"
              (String.concat "/")
              (Setup.mkHost true true true (fun e => e) Setup.Ret
                 (fun _ => Setup.Exited 101))
              {["HOME" := "/root"]}
              (Setup.mkWorld {["HOME" := "/root"]} [] []))
    as (_ & _ & Hfail & _).
  - intros H; vm_compute in H; discriminate.
  - reflexivity.
  - reflexivity.
  - apply (Hfail 101%Z); [reflexivity | discriminate].
Defined.

(** Cargo installed off the PATH: the child and the process get the
    exported environment. *)
Lemma cargo_build_exports_cargo_witness :
  Setup.os_environ
    (Setup.cargo_build ["repo"] "linux" "64bit" (String.concat "/")
       (Setup.mkGlobals false None None)
       (Setup.mkHost true false true (fun e => <["PATH" := "/cargo/bin"]> e)
          (fun _ => Setup.Raise (Setup.HelperError "rustup"))
          (fun _ => Setup.Exited 0))
       (Setup.mkWorld ∅ [] [])).2 = <["PATH" := "/cargo/bin"]> ∅.
Proof.
  rewrite (proj1 (cargo_build_exports_cargo ["repo"] "linux" "64bit"
                    (String.concat "/")
                    (Setup.mkHost true false true
                       (fun e => <["PATH" := "/cargo/bin"]> e)
                       (fun _ => Setup.Raise (Setup.HelperError "rustup"))
                       (fun _ => Setup.Exited 0))
                    (Setup.mkGlobals false None None)
                    (Setup.mkWorld ∅ [] []) eq_refl eq_refl eq_refl) eq_refl).
  reflexivity.
Defined.

(** Fuzzing with no [CC] at import, and [CC] gone from the process
    environment at build time. *)
Lemma cargo_build_missing_override_witness :
  Setup.cargo_build ["repo"] "linux" "64bit" (String.concat "/")
    (Setup.module_init {["TEST_QUESTDB_FUZZING" := "1"]}).1
    (Setup.mkHost true true true (fun e => e) Setup.Ret
       (fun _ => Setup.Exited 0))
    (Setup.mkWorld {["TEST_QUESTDB_FUZZING" := "1"]} [] []) =
  (Setup.Raise (Setup.KeyError "CC"),
   Setup.mkWorld {["TEST_QUESTDB_FUZZING" := "1"]} [] []).
Proof.
  destruct (cargo_build_missing_override ["repo"] "linux" "64bit"
              (String.concat "/")
              (Setup.mkHost true true true (fun e => e) Setup.Ret
                 (fun _ => Setup.Exited 0))
              {["TEST_QUESTDB_FUZZING" := "1"]}
              (Setup.mkWorld {["TEST_QUESTDB_FUZZING" := "1"]} [] [])
              (Setup.mkWorld {["TEST_QUESTDB_FUZZING" := "1"]} [] []))
    as [Hcc _].
  - vm_compute; reflexivity.
  - reflexivity.
  - apply Hcc; vm_compute; reflexivity.
Defined.

(** Fuzzing with [CC=gcc] before the import, in a ready checkout. *)
Lemma build_ext_run_under_fuzzing_witness :
  Setup.build_ext_run ["repo"] "linux" "64bit" (String.concat "/")
    (Setup.module_init (<["CC" := "gcc"]> {["TEST_QUESTDB_FUZZING" := "1"]})).1
    (Setup.mkHost true true true (fun e => e) Setup.Ret
       (fun _ => Setup.Exited 0))
    (Setup.ret tt)
    (Setup.mkWorld
       (Setup.module_init
          (<["CC" := "gcc"]> {["TEST_QUESTDB_FUZZING" := "1"]})).2 [] []) =
  (Setup.Ret tt,
   Setup.started
     (Setup.cargo_call ["repo"] "linux" "64bit" (String.concat "/")
        (<["CC" := "gcc"]> {["TEST_QUESTDB_FUZZING" := "1"]}))
     (Setup.mkWorld
        (Setup.module_init
           (<["CC" := "gcc"]> {["TEST_QUESTDB_FUZZING" := "1"]})).2 [] [])).
Proof.
  destruct (build_ext_run_under_fuzzing ["repo"] "linux" "64bit"
              (String.concat "/")
              (Setup.mkHost true true true (fun e => e) Setup.Ret
                 (fun _ => Setup.Exited 0))
              (<["CC" := "gcc"]> {["TEST_QUESTDB_FUZZING" := "1"]})
              (Setup.mkWorld
                 (Setup.module_init
                    (<["CC" := "gcc"]> {["TEST_QUESTDB_FUZZING" := "1"]})).2
                 [] [])
              (Setup.ret tt))
    as (Hrun & _).
  - vm_compute; reflexivity.
  - reflexivity.
  - reflexivity.
  - reflexivity.
  - reflexivity.
  - rewrite Hrun. reflexivity.
Defined.
